(** * The retrieval core of the Personal Knowledge Base RAG API

    A shallow embedding of [src/vector_db.py] (the two vector stores) and
    [src/retrieval.py] (the retriever), together with the statements of the
    specification that concern them.

    The Python code works on shared mutable objects (the caller's numpy
    array, the metadata dictionaries) and may raise; both are kept: a
    computation is a function on a heap of objects that returns a value or
    an exception.  The libraries the code calls into (FAISS, numpy, the
    Qdrant client, the embedding and reranking models) are modelled by
    their documented behaviour, each in a module of its own name. *)

From Stdlib Require Import ZArith Lia Ascii.
From stdpp Require Import gmap strings pretty list sorting fin_maps.

Local Open Scope string_scope.
Local Open Scope nat_scope.
Local Open Scope list_scope.

(** ** Python values, dictionaries, exceptions *)

(** Metadata values are typed [Any] in the source.  The code itself only
    produces and compares strings and the [None] that [dict.get] answers
    for a missing key, so these are the two kinds of value kept. *)
Inductive pyval : Type :=
| PyNone
| PyStr (s : string).

#[global] Instance pyval_eq_dec : EqDecision pyval.
Proof. solve_decision. Defined.

Abbreviation pydict := (gmap string pyval).

(** [d.get(key, dflt)] *)
Definition dict_get (d : pydict) (key : string) (dflt : pyval) : pyval :=
  default dflt (d !! key).

(** The dictionary after [d.setdefault(key, v)]. *)
Definition dict_with_default (d : pydict) (key : string) (v : pyval) : pydict :=
  match d !! key with
  | Some _ => d
  | None => <[key := v]> d
  end.

(** Truth value of a dictionary: false exactly when it is empty. *)
Definition dict_truthy (d : pydict) : bool := bool_decide (d ≠ ∅).

Inductive exn : Type :=
| IndexError
| KeyError
| AssertionError
| ValueError.

#[global] Instance exn_eq_dec : EqDecision exn.
Proof. solve_decision. Defined.

Inductive outcome (A : Type) : Type :=
| Return (a : A)
| Raise (e : exn).
Arguments Return {A} a.
Arguments Raise {A} e.

(** [l[i]] on a Python list: a negative index counts from the end. *)
Definition list_getitem {A : Type} (l : list A) (i : Z) : outcome A :=
  let n := Z.of_nat (length l) in
  let j := if bool_decide (i < 0)%Z then (i + n)%Z else i in
  if bool_decide (0 ≤ j < n)%Z
  then match l !! Z.to_nat j with
       | Some x => Return x
       | None => Raise IndexError
       end
  else Raise IndexError.

(** [l[:k]]: a negative bound counts from the end as well. *)
Definition slice_to {A : Type} (l : list A) (k : Z) : list A :=
  if bool_decide (0 ≤ k)%Z
  then take (Z.to_nat k) l
  else take (length l - Z.to_nat (- k)) l.

(** [d[key]] *)
Definition dict_getitem (d : pydict) (key : string) : outcome pyval :=
  match d !! key with
  | Some v => Return v
  | None => Raise KeyError
  end.

(** ** Floating-point kernels

    Vectors hold [float32] numbers.  Their arithmetic is left to an
    interface: the comparison the sorting routines use, the row
    normalisation of [faiss.normalize_L2], the inner product of
    [IndexFlatIP], and the positions numpy's quicksort answers for an
    array too long for its insertion sort (see [numpy.argsort]). *)
Class FloatOps (F : Type) : Type := {
  flt : F → F → bool;
  fvec_renorm_L2 : list F → list F;
  fvec_inner_product : list F → list F → F;
  aquicksort : list F → list nat;
}.

(** What the statements below assume of the kernels, where they say so:
    normalisation is in place, so a row keeps its length, and [<] on the
    numbers met (no NaN) is a strict weak order. *)
Class FloatLaws (F : Type) `{!FloatOps F} : Prop := {
  fvec_renorm_L2_length : ∀ v : list F, length (fvec_renorm_L2 v) = length v;
  flt_irrefl : ∀ x : F, flt x x = false;
  flt_trans : ∀ x y z : F, flt x y = true → flt y z = true → flt x z = true;
  flt_incomparable_trans :
    ∀ x y z : F, flt x y = false → flt y z = false → flt x z = false;
}.

(** ** The heap

    A reference is a position in the heap; allocation appends.  Arrays are
    two-dimensional, a list of rows. *)
Definition ref : Type := nat.

Record pyheap (F : Type) : Type := {
  arrays : list (list (list F));
  dicts : list pydict;
}.
Arguments arrays {F} _.
Arguments dicts {F} _.

Definition py (F A : Type) : Type := pyheap F → outcome A * pyheap F.

#[global] Instance py_ret (F : Type) : MRet (py F) :=
  λ A a h, (Return a, h).

#[global] Instance py_bind (F : Type) : MBind (py F) :=
  λ A B f m h,
    match m h with
    | (Return a, h') => f a h'
    | (Raise e, h') => (Raise e, h')
    end.

Definition lift {F A : Type} (o : outcome A) : py F A := λ h, (o, h).

Definition array_at {F : Type} (h : pyheap F) (r : ref) : list (list F) :=
  default [] (arrays h !! r).

Definition dict_at {F : Type} (h : pyheap F) (r : ref) : pydict :=
  default ∅ (dicts h !! r).

Definition read_array {F : Type} (r : ref) : py F (list (list F)) :=
  λ h, (Return (array_at h r), h).

Definition write_array {F : Type} (r : ref) (x : list (list F)) : py F unit :=
  λ h, (Return (), {| arrays := <[r := x]> (arrays h); dicts := dicts h |}).

Definition read_dict {F : Type} (r : ref) : py F pydict :=
  λ h, (Return (dict_at h r), h).

(** A new dictionary object. *)
Definition new_dict {F : Type} (d : pydict) : py F ref :=
  λ h, (Return (length (dicts h)),
        {| arrays := arrays h; dicts := dicts h ++ [d] |}).

(** [r.copy()]: a new object with the same items. *)
Definition dict_copy {F : Type} (r : ref) : py F ref :=
  λ h, new_dict (dict_at h r) h.

(** [r.setdefault(key, v)] changes the object [r] itself. *)
Definition dict_setdefault {F : Type} (r : ref) (key : string) (v : pyval)
  : py F unit :=
  λ h, (Return (),
        {| arrays := arrays h;
           dicts := <[r := dict_with_default (dict_at h r) key v]> (dicts h) |}).

(** ** FAISS

    The parts of the library the store uses, as documented:
    [normalize_L2] rescales every row of its argument in place;
    [IndexFlatIP] keeps the rows it was given and answers a search with
    the labels (positions) of the [k] largest inner products, best first,
    filling the answer with [-1] when the index holds fewer than [k] rows.
    The Python wrappers assert the row length and [k > 0]. *)
Module faiss.
Section Faiss.
Context {F : Type} `{!FloatOps F}.

Record IndexFlatIP : Type := {
  d : nat;
  xb : list (list F);
}.

Definition ntotal (idx : IndexFlatIP) : nat := length (xb idx).

Definition normalize_L2 (x : list (list F)) : list (list F) :=
  map fvec_renorm_L2 x.

Definition add (idx : IndexFlatIP) (x : list (list F)) : outcome IndexFlatIP :=
  if forallb (λ row, (length row =? d idx)%nat) x
  then Return {| d := d idx; xb := xb idx ++ x |}
  else Raise AssertionError.

(** Scored labels are kept best first; a new one goes before the first
    that scores strictly less.  (How the library orders equal scores is
    its own affair; no statement below rests on it.) *)
Fixpoint insert_desc (x : F * Z) (l : list (F * Z)) : list (F * Z) :=
  match l with
  | [] => [x]
  | y :: l' => if flt (fst y) (fst x) then x :: y :: l' else y :: insert_desc x l'
  end.

Definition ranked (idx : IndexFlatIP) (q : list F) : list Z :=
  let scored :=
    zip (map (fvec_inner_product q) (xb idx))
        (map Z.of_nat (seq 0 (ntotal idx))) in
  map snd (fold_left (λ acc x, insert_desc x acc) scored []).

Definition search (idx : IndexFlatIP) (q : list F) (k : Z) : outcome (list Z) :=
  if negb (length q =? d idx)%nat then Raise AssertionError
  else if bool_decide (k ≤ 0)%Z then Raise AssertionError
  else
    let best := take (Z.to_nat k) (ranked idx q) in
    Return (best ++ replicate (Z.to_nat k - length best) (-1)%Z).
End Faiss.
Arguments IndexFlatIP F : clear implicits.
End faiss.

(** ** numpy *)
Module numpy.
Section Insertion.
Context {F : Type}.
Variable lt : F → F → bool.

Fixpoint insert_asc (x : F * nat) (l : list (F * nat)) : list (F * nat) :=
  match l with
  | [] => [x]
  | y :: l' => if lt (fst y) (fst x) then y :: insert_asc x l' else x :: y :: l'
  end.

(** Insertion sort of the positions by score; equal scores stay in their
    original order. *)
Definition insertion_argsort (scores : list F) : list nat :=
  map snd (foldr insert_asc [] (zip scores (seq 0 (length scores)))).
End Insertion.

Section Numpy.
Context {F : Type} `{!FloatOps F}.

(** [np.argsort(scores)] with the default kind, numpy's quicksort: the
    positions of [scores] in ascending order of score.  The sort is not
    stable.  It finishes pieces of 16 elements or fewer by insertion, so
    an array that short comes out with equal scores in their original
    order; for a longer array the order among equal scores is the
    library's own, and the answer is the kernel [aquicksort]. *)
Definition argsort (scores : list F) : list nat :=
  if (length scores <=? 16)%nat
  then insertion_argsort flt scores
  else aquicksort scores.

(** [idx] lists the positions of [scores] in ascending order: paired with
    their scores they are a rearrangement of the scored positions in which
    no score is below an earlier one. *)
Definition ascending (scores : list F) (idx : list nat) : Prop :=
  ∃ order : list (F * nat),
    idx = map snd order
    ∧ order ≡ₚ zip scores (seq 0 (length scores))
    ∧ StronglySorted (λ x y, flt (fst y) (fst x) = false) order.
End Numpy.
End numpy.

(** What is assumed of numpy's quicksort, where a statement says so: it
    sorts. *)
Class SortLaws (F : Type) `{!FloatOps F} : Prop := {
  aquicksort_ascending : ∀ scores : list F, numpy.ascending scores (aquicksort scores);
}.

(** ** FAISSVectorDB (the flat store) *)
Module FAISSVectorDB.
Section FlatStore.
Context {F : Type} `{!FloatOps F}.

(** [metadata] is a list of references: [extend] stores the caller's
    dictionary objects themselves. *)
Record t : Type := {
  index : faiss.IndexFlatIP F;
  metadata : list ref;
}.

Definition __init__ (path : string) (dim : nat) : t :=
  {| index := {| faiss.d := dim; faiss.xb := [] |}; metadata := [] |}.

(** [vectors] is the caller's array; the updated store is returned.
    When [index.add] raises, the array has already been overwritten and
    the store is as before. *)
Definition add (self : t) (vectors : ref) (metadata_ : list ref) : py F t :=
  x ← read_array vectors;
  write_array vectors (faiss.normalize_L2 x);;
  x' ← read_array vectors;
  index' ← lift (faiss.add (index self) x');
  mret {| index := index'; metadata := metadata self ++ metadata_ |}.

(** The loop over [indices[0]]. *)
Fixpoint collect (md : list ref) (labels : list Z) : py F (list ref) :=
  match labels with
  | [] => mret []
  | i :: rest =>
      if bool_decide (i < Z.of_nat (length md))%Z
      then
        m ← lift (list_getitem md i);
        item ← dict_copy m;
        dict_setdefault item "text" (PyStr "");;
        dict_setdefault item "source" (PyStr "unknown");;
        results ← collect md rest;
        mret (item :: results)
      else collect md rest
  end.

(** [[r for r in results if r.get("source") == want]] *)
Definition keep_source (want : pyval) (results : list ref) : py F (list ref) :=
  λ h, (Return (filter (λ r, dict_get (dict_at h r) "source" PyNone = want) results), h).

(** [query_vector] is read only: [astype] works on a copy.  [filters] is
    [None] or a dictionary. *)
Definition search (self : t) (query_vector : list F) (top_k : Z)
    (filters : option pydict) : py F (list ref) :=
  let q := fvec_renorm_L2 query_vector in
  labels ← lift (faiss.search (index self) q top_k);
  results ← collect (metadata self) labels;
  match filters with
  | Some f =>
      if dict_truthy f
      then keep_source (dict_get f "source" PyNone) results
      else mret results
  | None => mret results
  end.
End FlatStore.
Arguments t F : clear implicits.
End FAISSVectorDB.

(** ** QdrantVectorDB (the remote collection store) *)
Module QdrantVectorDB.
Section RemoteStore.
Context {F : Type} `{!FloatOps F}.

Record point : Type := {
  id : string;
  vector : list F;
  payload : pydict;
}.

(** The client holds the collection ["pkb"]: the vector size it was
    created with and its points.  What the service does with an upsert
    (given the size, the points held and the new ones, it answers the
    points then held, or raises) and how it picks the hits of a search
    (approximate nearest neighbours under an optional condition on the
    payload's [source]; it may raise as well) are the service's own; both
    are components of the client. *)
Record QdrantClient : Type := {
  size : nat;
  points : list point;
  upsert_service : nat → list point → list point → outcome (list point);
  search_service : list point → list F → Z → option pyval → outcome (list point);
}.

Record t : Type := { client : QdrantClient }.

(** [recreate_collection] with [vectors_config={"size": 384, ...}]:
    whatever the collection held is gone. *)
Definition __init__ (path : string)
    (upserts : nat → list point → list point → outcome (list point))
    (searches : list point → list F → Z → option pyval → outcome (list point))
    : t :=
  {| client := {| size := 384; points := [];
                  upsert_service := upserts; search_service := searches |} |}.

(** [client.upsert(collection_name="pkb", points=pts)] *)
Definition upsert (c : QdrantClient) (pts : list point) : outcome QdrantClient :=
  match upsert_service c (size c) (points c) pts with
  | Return held =>
      Return {| size := size c; points := held;
                upsert_service := upsert_service c;
                search_service := search_service c |}
  | Raise e => Raise e
  end.

(** The two keys the store forwards and answers with. *)
Definition text_and_source (d : pydict) : pydict :=
  <["text" := dict_get d "text" (PyStr "")]>
    {["source" := dict_get d "source" (PyStr "unknown")]}.

(** [uuid4 n] is the [n]-th identifier drawn during the call. *)
Fixpoint make_points (uuid4 : nat → string) (n : nat)
    (pairs : list (list F * ref)) : py F (list point) :=
  match pairs with
  | [] => mret []
  | (vec, meta) :: rest =>
      m ← read_dict meta;
      pts ← make_points uuid4 (S n) rest;
      mret ({| id := uuid4 n; vector := vec; payload := text_and_source m |} :: pts)
  end.

(** The updated store is returned; when [client.upsert] raises, so does
    [add]. *)
Definition add (uuid4 : nat → string) (self : t) (vectors : ref)
    (metadata : list ref) : py F t :=
  x ← read_array vectors;
  pts ← make_points uuid4 0 (zip x metadata);
  client' ← lift (upsert (client self) pts);
  mret {| client := client' |}.

Fixpoint collect (hits : list point) : py F (list ref) :=
  match hits with
  | [] => mret []
  | hit :: rest =>
      r ← new_dict (text_and_source (payload hit));
      results ← collect rest;
      mret (r :: results)
  end.

Definition search (self : t) (query_vector : list F) (top_k : Z)
    (filters : option pydict) : py F (list ref) :=
  let filter_cond :=
    match filters with
    | Some f => if dict_truthy f then Some (dict_get f "source" PyNone) else None
    | None => None
    end in
  hits ← lift (search_service (client self) (points (client self))
                 query_vector top_k filter_cond);
  collect hits.
End RemoteStore.
Arguments point F : clear implicits.
Arguments QdrantClient F : clear implicits.
Arguments t F : clear implicits.
End QdrantVectorDB.

(** ** The VectorDB interface and its two implementations *)
Class VectorDB (F DB : Type) : Type := {
  vdb_add : DB → ref → list ref → py F DB;
  vdb_search : DB → list F → Z → option pydict → py F (list ref);
}.

#[global] Instance FAISSVectorDB_VectorDB {F : Type} `{!FloatOps F}
  : VectorDB F (FAISSVectorDB.t F) :=
  {| vdb_add := FAISSVectorDB.add; vdb_search := FAISSVectorDB.search |}.

Definition QdrantVectorDB_VectorDB {F : Type} `{!FloatOps F}
    (uuid4 : nat → string) : VectorDB F (QdrantVectorDB.t F) :=
  {| vdb_add := QdrantVectorDB.add uuid4; vdb_search := QdrantVectorDB.search |}.

(** ** Retriever *)
Module Retriever.
Section Retriever.
Context {F : Type} `{!FloatOps F} {DB : Type} `{!VectorDB F DB}.

(** The two models, by what the retriever calls on them. *)
Record Embedder : Type := { embed : list string → list (list F) }.
Record CrossEncoder : Type := { predict : list (string * pyval) → list F }.

Record t : Type := {
  db : DB;
  embedder : Embedder;
  reranker : option CrossEncoder;
}.

(** [[c for c in candidates if isinstance(c, dict) and "text" in c]] *)
Definition keep_valid (candidates : list ref) : py F (list ref) :=
  λ h, (Return (filter (λ c, is_Some (dict_at h c !! "text")) candidates), h).

(** [[query, c["text"]]] *)
Definition pair_of (query : string) (c : ref) : py F (string * pyval) :=
  m ← read_dict c;
  text ← lift (dict_getitem m "text");
  mret (query, text).

Definition retrieve (self : t) (query : string) (top_k_initial top_k_final : Z)
    (filters : option pydict) : py F (list ref) :=
  query_vec ← lift (list_getitem (embed (embedder self) [query]) 0);
  candidates ← vdb_search (db self) query_vec top_k_initial filters;
  valid_candidates ← keep_valid candidates;
  match reranker self, valid_candidates with
  | Some model, _ :: _ =>
      pairs ← mapM (pair_of query) valid_candidates;
      let scores := predict model pairs in
      let sorted_idx := slice_to (rev (numpy.argsort scores)) top_k_final in
      mapM (λ i : nat, lift (list_getitem valid_candidates (Z.of_nat i))) sorted_idx
  | _, _ => mret (slice_to valid_candidates top_k_final)
  end.
End Retriever.
Arguments Embedder F : clear implicits.
Arguments CrossEncoder F : clear implicits.
Arguments t F DB : clear implicits.
End Retriever.

(** ** Exact kernels for worked examples

    Integer coordinates, for vectors with at most one non-zero coordinate:
    scaling such a vector to unit norm replaces the coordinate by its sign,
    and every number that occurs is exact in [float32].  An array too
    long for the insertion sort comes out with equal scores in the reverse
    of their original order, one of the orders an unstable sort may
    give. *)
Definition dot (u v : list Z) : Z := foldr Z.add 0%Z (zip_with Z.mul u v).

#[global] Instance axis_ops : FloatOps Z :=
  {| flt := Z.ltb; fvec_renorm_L2 := map Z.sgn; fvec_inner_product := dot;
     aquicksort := λ scores,
       rev (numpy.insertion_argsort (λ a b, (b <? a)%Z) scores) |}.

#[global] Instance axis_laws : FloatLaws Z.
Proof.
  split.
  - intros v. apply length_map.
  - intros x. apply Z.ltb_irrefl.
  - intros x y z Hxy Hyz. apply Z.ltb_lt in Hxy, Hyz. apply Z.ltb_lt. lia.
  - intros x y z Hxy Hyz. apply Z.ltb_ge in Hxy, Hyz. apply Z.ltb_ge. lia.
Qed.

(** What the caller sees of an answer: the dictionaries returned. *)
Definition returned {F : Type} (r : outcome (list ref) * pyheap F)
  : outcome (list pydict) :=
  match r with
  | (Return rs, h) => Return (map (dict_at h) rs)
  | (Raise e, _) => Raise e
  end.

(** A stored entry as a search hands it out: a copy with the two defaults. *)
Definition candidate_of (d : pydict) : pydict :=
  dict_with_default (dict_with_default d "text" (PyStr "")) "source" (PyStr "unknown").

(** The stored references live in the heap. *)
Definition live {F : Type} (h : pyheap F) (refs : list ref) : Prop :=
  Forall (λ r, r < length (dicts h)) refs.

Definition meta (text source : string) : pydict :=
  <["text" := PyStr text]> {["source" := PyStr source]}.

(** An empty flat store of dimension 2 and a heap with nothing in it. *)
Definition empty_store : FAISSVectorDB.t Z := FAISSVectorDB.__init__ "db/index" 2.
Definition empty_heap : pyheap Z := {| arrays := []; dicts := [] |}.

(** Two passages and their vectors, before and after [add]. *)
Definition two_heap : pyheap Z :=
  {| arrays := [[[0; 3]; [5; 0]]%Z];
     dicts := [meta "cats are mammals" "a.txt"; meta "stocks rose today" "b.txt"] |}.
Definition two_heap_added : pyheap Z :=
  {| arrays := [[[0; 1]; [1; 0]]%Z];
     dicts := [meta "cats are mammals" "a.txt"; meta "stocks rose today" "b.txt"] |}.
Definition two_store : FAISSVectorDB.t Z :=
  {| FAISSVectorDB.index := {| faiss.d := 2; faiss.xb := [[0; 1]; [1; 0]]%Z |};
     FAISSVectorDB.metadata := [0; 1] |}.

(** The stored references a list of labels selects, as the loop of
    [search] walks it. *)
Fixpoint picked (md : list ref) (labels : list Z) : outcome (list ref) :=
  match labels with
  | [] => Return []
  | i :: rest =>
      if bool_decide (i < Z.of_nat (length md))%Z
      then match list_getitem md i, picked md rest with
           | Return m, Return ms => Return (m :: ms)
           | Raise e, _ => Raise e
           | _, Raise e => Raise e
           end
      else picked md rest
  end.

(** One passage, stored. *)
Definition one_heap : pyheap Z :=
  {| arrays := [[[1; 0]]%Z]; dicts := [meta "cats are mammals" "a.txt"] |}.
Definition one_store : FAISSVectorDB.t Z :=
  {| FAISSVectorDB.index := {| faiss.d := 2; faiss.xb := [[1; 0]]%Z |};
     FAISSVectorDB.metadata := [0] |}.

(** Three passages, the last two from the same document; against the query
    [[1; 0]] they score 1, 0 and -1. *)
Definition three_heap : pyheap Z :=
  {| arrays := [[[1; 0]; [0; 1]; [-1; 0]]%Z];
     dicts := [meta "first" "a.txt"; meta "second" "b.txt"; meta "third" "b.txt"] |}.
Definition three_store : FAISSVectorDB.t Z :=
  {| FAISSVectorDB.index :=
       {| faiss.d := 2; faiss.xb := [[1; 0]; [0; 1]; [-1; 0]]%Z |};
     FAISSVectorDB.metadata := [0; 1; 2] |}.

(** The filter as [FAISSVectorDB.search] applies it to the candidates it
    has collected. *)
Definition kept {F : Type} (filters : option pydict) (h : pyheap F)
    (results : list ref) : list ref :=
  match filters with
  | Some f =>
      if dict_truthy f
      then filter (λ r, dict_get (dict_at h r) "source" PyNone
                        = dict_get f "source" PyNone) results
      else results
  | None => results
  end.

(** A remote service for the examples.  An upsert refuses a point whose
    vector has not the size of the collection; otherwise a point takes the
    place of the one with its identifier, or is added at the end. *)
Fixpoint upsert_point (p : QdrantVectorDB.point Z)
    (ps : list (QdrantVectorDB.point Z)) : list (QdrantVectorDB.point Z) :=
  match ps with
  | [] => [p]
  | p' :: ps' =>
      if bool_decide (QdrantVectorDB.id p' = QdrantVectorDB.id p)
      then p :: ps'
      else p' :: upsert_point p ps'
  end.

Definition upsert_sized (size : nat) (held pts : list (QdrantVectorDB.point Z))
    : outcome (list (QdrantVectorDB.point Z)) :=
  if forallb (λ p, (length (QdrantVectorDB.vector p) =? size)%nat) pts
  then Return (fold_left (λ acc p, upsert_point p acc) pts held)
  else Raise ValueError.

(** A search answers with the first [limit] points that meet the
    condition, in the order they were stored. *)
Definition first_matching (pts : list (QdrantVectorDB.point Z)) (q : list Z)
    (limit : Z) (cond : option pyval) : outcome (list (QdrantVectorDB.point Z)) :=
  Return
    (take (Z.to_nat limit)
       (match cond with
        | Some v =>
            filter (λ p, dict_get (QdrantVectorDB.payload p) "source" PyNone = v) pts
        | None => pts
        end)).

Definition remote_store : QdrantVectorDB.t Z :=
  QdrantVectorDB.__init__ "db/index" upsert_sized first_matching.

Definition uuids (n : nat) : string := "uuid-" +:+ pretty n.

(** A vector of the size of the remote collection, along the first
    coordinate. *)
Definition along_first (c : Z) : list Z := c :: replicate 383 0%Z.

(** An entry with a key besides [text] and [source]. *)
Definition paged_heap : pyheap Z :=
  {| arrays := [[along_first 3]];
     dicts := [<["page" := PyStr "3"]> (meta "a note" "a.txt")] |}.

(** [x] stands before [y] in the reranked order: the score of [x] is not
    below that of [y], and where neither score is below the other, [x] is
    the one that stood later in the list that was reranked.  A pair is a
    score with the position it was computed for. *)
Definition ranks_before {F : Type} `{!FloatOps F} (x y : F * nat) : Prop :=
  flt (fst x) (fst y) = false ∧ (flt (fst y) (fst x) = false → snd y < snd x).

(** An embedder that gives every text the vector [[7; 0]]. *)
Definition fixed_embedder : Retriever.Embedder Z :=
  {| Retriever.embed := map (λ _, [7; 0]%Z) |}.

(** A retriever over the two stored passages whose reranker gives every
    pair the same score. *)
Definition level_retriever : Retriever.t Z (FAISSVectorDB.t Z) :=
  {| Retriever.db := two_store;
     Retriever.embedder := fixed_embedder;
     Retriever.reranker := Some {| Retriever.predict := map (λ _, 5%Z) |} |}.

(** A retriever without reranker over the empty store. *)
Definition empty_retriever : Retriever.t Z (FAISSVectorDB.t Z) :=
  {| Retriever.db := empty_store;
     Retriever.embedder := fixed_embedder;
     Retriever.reranker := None |}.

(** ** Python strings as sequences of characters *)

(** A [str] is the sequence of its characters; a character below 256 is
    an [ascii].  The chunker only measures, cuts, joins and compares. *)
Definition str : Type := list ascii.

(** [l[i:j]] for any two integers: a negative bound counts from the end,
    bounds are clamped to the sequence. *)
Definition py_slice {A : Type} (l : list A) (i j : Z) : list A :=
  let n := Z.of_nat (length l) in
  let clamp (k : Z) := Z.min n (Z.max 0 (if bool_decide (k < 0)%Z then k + n else k))%Z in
  take (Z.to_nat (clamp j) - Z.to_nat (clamp i)) (drop (Z.to_nat (clamp i)) l).

(** [range(0, stop, step)], or nothing when [step] is zero (the call
    raises [ValueError]). *)
Definition range_from_zero (stop step : Z) : option (list Z) :=
  if bool_decide (step = 0)%Z then None
  else
    let count :=
      if bool_decide (0 < step)%Z
      then Z.to_nat ((stop + step - 1) / step)
      else Z.to_nat ((- stop + - step - 1) / - step) in
    Some (map (λ j : nat, (Z.of_nat j * step)%Z) (seq 0 count)).

(** [s.split(sep)] for a separator of the two characters [a], [b]: the
    pieces between the occurrences of the separator, found from the left
    without overlap.  [cur] is the piece being read. *)
Fixpoint split2 (a b : ascii) (cur s : str) : list str :=
  match s with
  | [] => [cur]
  | c :: s' =>
      match s' with
      | c' :: s'' =>
          if bool_decide (c = a ∧ c' = b)
          then cur :: split2 a b [] s''
          else split2 a b (cur ++ [c]) s'
      | [] => [cur ++ [c]]
      end
  end.

(** [sep.join(pieces)] *)
Fixpoint join (sep : str) (pieces : list str) : str :=
  match pieces with
  | [] => []
  | [p] => p
  | p :: rest => p ++ sep ++ join sep rest
  end.

(** [str.isspace] on one character below 256. *)
Definition is_space (c : ascii) : bool :=
  let n := nat_of_ascii c in
  ((9 <=? n) && (n <=? 13)) || ((28 <=? n) && (n <=? 32)) || (n =? 133) || (n =? 160).

Fixpoint lstrip (s : str) : str :=
  match s with
  | c :: s' => if is_space c then lstrip s' else s
  | [] => []
  end.

(** [s.strip()] *)
Definition strip (s : str) : str := rev (lstrip (rev (lstrip s))).

Definition newline : ascii := "010"%char.

(** The text ['. '] *)
Definition full_stop_space : str := ["."; " "]%char.

(** ** Chunker *)
Module Chunker.
Record t : Type := {
  strategy : string;
  chunk_size : Z;
}.

Definition __init__ (strategy : string) (chunk_size : Z) : t :=
  {| strategy := strategy; chunk_size := chunk_size |}.

(** What a call of [chunk] ends in: the chunks, or [ValueError] with its
    message. *)
Inductive chunked : Type :=
| Chunks (chunks : list str)
| ValueError (message : string).

(** One turn of the loop of the sentence strategy; the state is
    [(chunks, current)]. *)
Definition sentence_step (size : Z) (state : list str * str) (sent : str)
  : list str * str :=
  let '(chunks, current) := state in
  if bool_decide (size < Z.of_nat (length current) + Z.of_nat (length sent))%Z
  then (chunks ++ [current], sent ++ full_stop_space)
  else (chunks, current ++ sent ++ full_stop_space).

(** One turn of the loop of [_sentence_split]. *)
Definition split_step (size : Z) (state : list str * str) (sent : str)
  : list str * str :=
  let '(chunks, current) := state in
  if bool_decide (size < Z.of_nat (length current) + Z.of_nat (length sent))%Z
  then ((if bool_decide (strip current ≠ []) then chunks ++ [strip current] else chunks),
        sent ++ [" "%char])
  else (chunks, current ++ sent ++ [" "%char]).

Section Chunk.
(** [nltk.sent_tokenize], which the library owns. *)
Variable sent_tokenize : str → list str.

Definition _sentence_split (text : str) (size : Z) : list str :=
  let '(chunks, current) := fold_left (split_step size) (sent_tokenize text) ([], []) in
  if bool_decide (strip current ≠ []) then chunks ++ [strip current] else chunks.

Definition chunk (self : t) (text : str) : chunked :=
  if bool_decide (strategy self = "fixed") then
    match range_from_zero (Z.of_nat (length text)) (chunk_size self) with
    | Some starts =>
        Chunks (map (λ i, py_slice text i (i + chunk_size self)) starts)
    | None => ValueError "range() arg 3 must not be zero"
    end
  else if bool_decide (strategy self = "sentence") then
    let sentences := split2 "."%char " "%char [] text in
    let '(chunks, current) :=
      fold_left (sentence_step (chunk_size self)) sentences ([], []) in
    Chunks (if bool_decide (current ≠ []) then chunks ++ [current] else chunks)
  else if bool_decide (strategy self = "recursive") then
    let paragraphs := split2 newline newline [] text in
    Chunks (concat (map (λ para,
              if bool_decide (Z.of_nat (length para) ≤ chunk_size self)%Z
              then [para]
              else _sentence_split para (chunk_size self)) paragraphs))
  else ValueError "Invalid chunking strategy".
End Chunk.
End Chunker.

(** A tokenizer for the examples: it cuts after every full stop. *)
Fixpoint after_full_stops (cur s : str) : list str :=
  match s with
  | [] => if bool_decide (cur = []) then [] else [cur]
  | c :: s' =>
      if bool_decide (c = "."%char)
      then (cur ++ [c]) :: after_full_stops [] s'
      else after_full_stops (cur ++ [c]) s'
  end.

(** A chunk of the sentence strategy that is well formed for the chunk
    size [size] and the sentences [sentences]: it ends with ['. '], and it
    is one sentence followed by ['. '] or has at most [size + 2]
    characters. *)
Definition sentence_chunk (size : Z) (sentences : list str) (c : str) : Prop :=
  (∃ p : str, c = p ++ full_stop_space)
  ∧ ((Z.of_nat (length c) ≤ size + 2)%Z
     ∨ ∃ sent : str, sent ∈ sentences ∧ c = sent ++ full_stop_space).

(** ** The request handlers of api.py *)

(** A new array object. *)
Definition new_array {F : Type} (x : list (list F)) : py F ref :=
  λ h, (Return (length (arrays h)),
        {| arrays := arrays h ++ [x]; dicts := dicts h |}).

(** [s.endswith(suffix)] *)
Definition endswith (s suffix : str) : bool :=
  bool_decide (length suffix ≤ length s ∧ drop (length s - length suffix) s = suffix).

(** A Python [str] as a metadata value. *)
Definition py_str (s : str) : pyval := PyStr (String.string_of_list_ascii s).

Module api.
(** Raw bytes. *)
Definition bytes : Type := list ascii.

(** What the handlers call outside this repository: [pathlib] and
    [str.lower] for the suffix of a file name, the UTF-8 decoder, the PDF
    reader (the text of the pages joined by spaces), the sentence
    tokenizer of the chunker, and [Generator.generate] with the language
    model behind it.  A decoder or reader that raises answers nothing. *)
Record Services : Type := {
  path_suffix : str → str;
  lower : str → str;
  decode_utf8 : bytes → option str;
  pdf_text : bytes → option str;
  sent_tokenize : str → list str;
  generate : string → list pydict → string;
}.

Record UploadFile : Type := {
  filename : str;
  content : bytes;
}.

(** What a handler answers: the body of a response, or an
    [HTTPException] with its status code. *)
Inductive response (A : Type) : Type :=
| Respond (body : A)
| HTTPException (status_code : Z).
Arguments Respond {A} body.
Arguments HTTPException {A} status_code.

Record upload_body : Type := {
  upload_filename : str;
  chunks_ingested : nat;
  upload_source : str;
}.

Record query_body : Type := {
  answer : string;
  contexts : list (pyval * pyval);
}.

Definition ALLOWED_EXTENSIONS : list str :=
  [String.list_ascii_of_string ".txt"; String.list_ascii_of_string ".pdf"].

Section Api.
Context {F : Type} `{!FloatOps F} {DB : Type} `{!VectorDB F DB}.
Variable services : Services.

(** The objects the module creates once: the chunker, the embedder, the
    reranker of the retriever, and the store, which the retriever shares
    with the upload handler. *)
Record app : Type := {
  chunker : Chunker.t;
  embedder : Retriever.Embedder F;
  reranker : option (Retriever.CrossEncoder F);
  vector_db : DB;
}.

Definition retriever (a : app) : Retriever.t F DB :=
  {| Retriever.db := vector_db a;
     Retriever.embedder := embedder a;
     Retriever.reranker := reranker a |}.

Definition allowed_file (filename : str) : bool :=
  bool_decide (lower services (path_suffix services filename) ∈ ALLOWED_EXTENSIONS).

(** [source_name or file.filename] *)
Definition source_of (source_name : option str) (filename : str) : str :=
  match source_name with
  | Some (c :: s) => c :: s
  | _ => filename
  end.

(** The part of [upload_document] from the embedding on. *)
Definition ingest (a : app) (chunks : list str) (source : str) : py F DB :=
  vectors ← new_array (Retriever.embed (embedder a)
                         (map String.string_of_list_ascii chunks));
  metadata ← mapM (λ chunk, new_dict (<["text" := py_str chunk]>
                                        {["source" := py_str source]})) chunks;
  vdb_add (vector_db a) vectors metadata.

(** Every exception raised inside the [try] block, the two
    [HTTPException(400)] of the block included, is caught by
    [except Exception] and answered with status 500. *)
Definition upload_document (a : app) (file : UploadFile) (source_name : option str)
    (h : pyheap F) : response upload_body * app * pyheap F :=
  if negb (allowed_file (filename file)) then (HTTPException 400, a, h)
  else
    match (if endswith (filename file) (String.list_ascii_of_string ".txt")
           then decode_utf8 services (content file) else Some []) with
    | None => (HTTPException 500, a, h)
    | Some decoded =>
        match (if endswith (filename file) (String.list_ascii_of_string ".pdf")
               then pdf_text services (content file) else Some decoded) with
        | None => (HTTPException 500, a, h)
        | Some text =>
            if bool_decide (strip text = []) then (HTTPException 500, a, h)
            else
              match Chunker.chunk (sent_tokenize services) (chunker a) text with
              | Chunker.ValueError _ => (HTTPException 500, a, h)
              | Chunker.Chunks [] => (HTTPException 500, a, h)
              | Chunker.Chunks chunks =>
                  let source := source_of source_name (filename file) in
                  match ingest a chunks source h with
                  | (Return db', h') =>
                      (Respond {| upload_filename := filename file;
                                  chunks_ingested := length chunks;
                                  upload_source := source |},
                       {| chunker := chunker a; embedder := embedder a;
                          reranker := reranker a; vector_db := db' |},
                       h')
                  | (Raise _, h') => (HTTPException 500, a, h')
                  end
              end
        end
    end.

(** [{"text": c["text"], "source": c.get("source", "unknown")}] *)
Definition context_view (c : ref) : py F (pyval * pyval) :=
  m ← read_dict c;
  text ← lift (dict_getitem m "text");
  mret (text, dict_get m "source" (PyStr "unknown")).

Definition ask_question (a : app) (query : string) (filter_source : option string)
    (h : pyheap F) : response query_body * pyheap F :=
  let filters : option pydict :=
    match filter_source with
    | Some (String c s) => Some {["source" := PyStr (String c s)]}
    | _ => None
    end in
  match Retriever.retrieve (retriever a) query 10 3 filters h with
  | (Raise _, h') => (HTTPException 500, h')
  | (Return [], h') =>
      (Respond {| answer := "No relevant information found."; contexts := [] |}, h')
  | (Return found, h') =>
      match mapM context_view found h' with
      | (Return views, h'') =>
          (Respond {| answer := generate services query (map (dict_at h') found);
                      contexts := views |}, h'')
      | (Raise _, h'') => (HTTPException 500, h'')
      end
  end.
End Api.
Arguments app F DB : clear implicits.
End api.

(** Services for the examples: file names without directories, whose
    suffix is taken from the last dot; ASCII letters; bytes read as the
    characters they are; no PDF reader. *)
Fixpoint from_last_dot (name : str) : option str :=
  match name with
  | [] => None
  | c :: s =>
      match from_last_dot s with
      | Some suffix => Some suffix
      | None => if bool_decide (c = "."%char) then Some (c :: s) else None
      end
  end.

Definition last_dot_suffix (name : str) : str :=
  match name with
  | [] => []
  | _ :: s =>
      match from_last_dot s with
      | Some (c :: c' :: suffix) => c :: c' :: suffix
      | _ => []
      end
  end.

Definition ascii_lower (c : ascii) : ascii :=
  let n := nat_of_ascii c in
  if (65 <=? n) && (n <=? 90) then ascii_of_nat (n + 32) else c.

Definition plain_services : api.Services :=
  {| api.path_suffix := last_dot_suffix;
     api.lower := map ascii_lower;
     api.decode_utf8 := Some;
     api.pdf_text := λ _, None;
     api.sent_tokenize := after_full_stops [];
     api.generate := λ _ _, "an answer" |}.

(** A flat store in good order: it holds as many metadata entries as
    vectors, and the entries are live objects. *)
Definition consistent {F : Type} `{!FloatOps F} (h : pyheap F)
    (s : FAISSVectorDB.t F) : Prop :=
  length (FAISSVectorDB.metadata s) = faiss.ntotal (FAISSVectorDB.index s)
  ∧ live h (FAISSVectorDB.metadata s).

(** The application of the examples: chunks of five characters, the fixed
    embedder, no reranker, an empty flat store. *)
Definition fresh_app : api.app Z (FAISSVectorDB.t Z) :=
  {| api.chunker := Chunker.__init__ "fixed" 5;
     api.embedder := fixed_embedder;
     api.reranker := None;
     api.vector_db := empty_store |}.

Definition notes_txt : api.UploadFile :=
  {| api.filename := String.list_ascii_of_string "notes.txt";
     api.content := String.list_ascii_of_string "hello world!" |}.

(** A candidate as a response shows it. *)
Definition shown {F : Type} (h : pyheap F) (c : ref) : pyval * pyval :=
  (dict_get (dict_at h c) "text" PyNone,
   dict_get (dict_at h c) "source" (PyStr "unknown")).

(** [filters] as [ask_question] builds it from [filter_source]. *)
Definition filters_of (filter_source : option string) : option pydict :=
  match filter_source with
  | Some (String c s) => Some {["source" := PyStr (String c s)]}
  | _ => None
  end.

(** The application of the examples over the two stored passages. *)
Definition stocked_app : api.app Z (FAISSVectorDB.t Z) :=
  {| api.chunker := Chunker.__init__ "fixed" 5;
     api.embedder := fixed_embedder;
     api.reranker := None;
     api.vector_db := two_store |}.

(** The same file under an upper-case name. *)
Definition NOTES_TXT : api.UploadFile :=
  {| api.filename := String.list_ascii_of_string "NOTES.TXT";
     api.content := String.list_ascii_of_string "hello world!" |}.

(** The similarity scores of a search: the inner products of the
    normalized query with the stored rows, which the index ranks by.  The
    store drops the scores the index answers: a candidate carries none. *)
Definition similarity {F : Type} `{!FloatOps F} (self : FAISSVectorDB.t F)
    (query_vector : list F) : list F :=
  map (fvec_inner_product (fvec_renorm_L2 query_vector))
      (faiss.xb (FAISSVectorDB.index self)).

(** A vector with at most one non-zero coordinate. *)
Definition on_an_axis (v : list Z) : Prop :=
  ∃ (i j : nat) (c : Z), v = replicate i 0%Z ++ c :: replicate j 0%Z.

(** One passage and its vector, before [add]; the same passage with the
    zero vector. *)
Definition lone_heap : pyheap Z :=
  {| arrays := [[[0; 3]]%Z]; dicts := [meta "a note" "a.txt"] |}.
Definition zero_heap : pyheap Z :=
  {| arrays := [[[0; 0]]%Z]; dicts := [meta "a note" "a.txt"] |}.

(** * Properties *)

(** ** Running a computation *)
Section Run.
Context {F : Type}.

Lemma bind_run {A B : Type} (m : py F A) (f : A → py F B) (h : pyheap F) :
  (m ≫= f) h =
  match m h with
  | (Return a, h') => f a h'
  | (Raise e, h') => (Raise e, h')
  end.
Proof. reflexivity. Qed.
End Run.

(** ** FAISSVectorDB.add *)
Section Add.
Context {F : Type} `{!FloatOps F}.
Implicit Types (self : FAISSVectorDB.t F) (h : pyheap F) (x : list (list F)).

Lemma add_run self (vectors : ref) (metadata : list ref) h x :
  arrays h !! vectors = Some x →
  FAISSVectorDB.add self vectors metadata h =
  (match faiss.add (FAISSVectorDB.index self) (faiss.normalize_L2 x) with
   | Return index' =>
       Return {| FAISSVectorDB.index := index';
                 FAISSVectorDB.metadata := FAISSVectorDB.metadata self ++ metadata |}
   | Raise e => Raise e
   end,
   {| arrays := <[vectors := faiss.normalize_L2 x]> (arrays h); dicts := dicts h |}).
Proof.
  intros Hx.
  assert (Hlt : vectors < length (arrays h)) by (eapply lookup_lt_Some; eauto).
  unfold FAISSVectorDB.add. rewrite !bind_run.
  unfold read_array at 1. unfold array_at at 1. rewrite Hx. simpl.
  rewrite bind_run. unfold write_array. rewrite bind_run.
  unfold read_array, array_at. simpl.
  rewrite list_lookup_insert_eq by done. simpl.
  rewrite bind_run. unfold lift.
  destruct (faiss.add _ _); reflexivity.
Qed.

Lemma faiss_add_ok `{!FloatLaws F} (idx : faiss.IndexFlatIP F) x :
  Forall (λ row, length row = faiss.d idx) x →
  faiss.add idx (faiss.normalize_L2 x) =
  Return {| faiss.d := faiss.d idx; faiss.xb := faiss.xb idx ++ faiss.normalize_L2 x |}.
Proof.
  intros Hdim. unfold faiss.add.
  replace (forallb _ _) with true; [done|].
  symmetry. apply forallb_forall. intros row Hin.
  unfold faiss.normalize_L2 in Hin. apply in_map_iff in Hin as (row0 & <- & Hin0).
  rewrite fvec_renorm_L2_length. apply Nat.eqb_eq.
  rewrite Forall_forall in Hdim. apply Hdim. by apply list_elem_of_In.
Qed.
End Add.

(** C10: FlatStore add L2-normalizes the caller's vectors array in place:
    after the call the array the caller passed holds the normalized rows,
    so a batch that was not already normalized no longer holds its
    original values; nothing else in the heap changes. *)
Theorem add_normalizes_the_callers_array {F : Type} `{!FloatOps F}
    (self : FAISSVectorDB.t F) (vectors : ref) (metadata : list ref)
    (h : pyheap F) (x : list (list F)) :
  arrays h !! vectors = Some x →
  let h' := snd (FAISSVectorDB.add self vectors metadata h) in
  arrays h' !! vectors = Some (faiss.normalize_L2 x)
  ∧ (faiss.normalize_L2 x ≠ x → arrays h' !! vectors ≠ arrays h !! vectors)
  ∧ (∀ r : ref, r ≠ vectors → arrays h' !! r = arrays h !! r)
  ∧ dicts h' = dicts h.
Proof.
  intros Hx h'. subst h'. rewrite (add_run _ _ _ _ _ Hx). simpl.
  assert (Hlt : vectors < length (arrays h)) by (eapply lookup_lt_Some; eauto).
  repeat split.
  - by apply list_lookup_insert_eq.
  - intros Hne. rewrite list_lookup_insert_eq by done. rewrite Hx. congruence.
  - intros r Hr. by apply list_lookup_insert_ne.
Qed.

Lemma add_normalizes_the_callers_array_witness :
  arrays two_heap !! 0 = Some [[0; 3]; [5; 0]]%Z
  ∧ arrays (snd (FAISSVectorDB.add empty_store 0 [0; 1] two_heap)) !! 0
    = Some [[0; 1]; [1; 0]]%Z
  ∧ arrays (snd (FAISSVectorDB.add empty_store 0 [0; 1] two_heap)) !! 0
    ≠ arrays two_heap !! 0.
Proof.
  destruct (add_normalizes_the_callers_array empty_store 0 [0; 1] two_heap
              [[0; 3]; [5; 0]]%Z eq_refl) as (Hnew & Hchanged & _).
  split; [reflexivity|]. split; [exact Hnew|].
  apply Hchanged. discriminate.
Defined.

(** C3, as the code has it: [add] does not compare the two batch lengths.
    Whenever the rows have the store's dimension it returns normally, the
    index grows by the number of vectors and the metadata list by the
    number of metadata entries, whether or not the two numbers agree. *)
Theorem add_takes_batches_of_any_two_lengths {F : Type} `{!FloatOps F}
    `{!FloatLaws F} (self : FAISSVectorDB.t F) (vectors : ref)
    (metadata : list ref) (h : pyheap F) (x : list (list F)) :
  arrays h !! vectors = Some x →
  Forall (λ row, length row = faiss.d (FAISSVectorDB.index self)) x →
  ∃ self' : FAISSVectorDB.t F,
    fst (FAISSVectorDB.add self vectors metadata h) = Return self'
    ∧ faiss.ntotal (FAISSVectorDB.index self')
      = faiss.ntotal (FAISSVectorDB.index self) + length x
    ∧ length (FAISSVectorDB.metadata self')
      = length (FAISSVectorDB.metadata self) + length metadata.
Proof.
  intros Hx Hdim. rewrite (add_run _ _ _ _ _ Hx), (faiss_add_ok _ _ Hdim). simpl.
  eexists. split; [reflexivity|]. simpl. unfold faiss.ntotal, faiss.normalize_L2. simpl.
  rewrite !length_app, length_map. done.
Qed.

Lemma add_takes_batches_of_any_two_lengths_witness :
  arrays two_heap !! 0 = Some [[0; 3]; [5; 0]]%Z
  ∧ Forall (λ row : list Z, length row = 2) [[0; 3]; [5; 0]]%Z
  ∧ ∃ self' : FAISSVectorDB.t Z,
      fst (FAISSVectorDB.add empty_store 0 [0] two_heap) = Return self'
      ∧ faiss.ntotal (FAISSVectorDB.index self') = 0 + 2
      ∧ length (FAISSVectorDB.metadata self') = 0 + 1.
Proof.
  split; [reflexivity|]. split; [repeat constructor|].
  apply (add_takes_batches_of_any_two_lengths empty_store 0 [0] two_heap
           [[0; 3]; [5; 0]]%Z).
  - reflexivity.
  - repeat constructor.
Defined.

(** C3 as stated fails: two vectors with one metadata entry are accepted,
    and the store has grown. *)
Lemma add_mismatched_batch_returns_normally :
  length (array_at two_heap 0) = 2
  ∧ length [0] = 1
  ∧ FAISSVectorDB.add empty_store 0 [0] two_heap
    = (Return {| FAISSVectorDB.index :=
                   {| faiss.d := 2; faiss.xb := [[0; 1]; [1; 0]]%Z |};
                 FAISSVectorDB.metadata := [0] |},
       two_heap_added).
Proof. repeat split. Qed.

(** ** The loop of FAISSVectorDB.search *)
Section Collect.
Context {F : Type}.
Implicit Types (h : pyheap F) (md ms : list ref) (labels : list Z).

Lemma list_getitem_elem {A : Type} (l : list A) (i : Z) (x : A) :
  list_getitem l i = Return x → x ∈ l.
Proof.
  unfold list_getitem. case_bool_decide; [|done].
  destruct (l !! _) eqn:E; [|done]. intros [= <-].
  by eapply list_elem_of_lookup_2.
Qed.

Lemma picked_elem md labels ms :
  picked md labels = Return ms → Forall (λ m, m ∈ md) ms.
Proof.
  revert ms. induction labels as [|i rest IH]; intros ms; simpl.
  - intros [= <-]. constructor.
  - case_bool_decide; [|by apply IH].
    destruct (list_getitem md i) as [m|e] eqn:Em; [|done].
    destruct (picked md rest) as [ms'|e]; [|done].
    intros [= <-]. constructor; [by eapply list_getitem_elem|by apply IH].
Qed.

Lemma dict_at_grown h (extra : list pydict) (r : ref) :
  r < length (dicts h) →
  dict_at {| arrays := arrays h; dicts := dicts h ++ extra |} r = dict_at h r.
Proof. intros Hr. unfold dict_at. simpl. by rewrite lookup_app_l. Qed.

Lemma setdefault_newest (a : list (list (list F))) (ds : list pydict)
    (d : pydict) (key : string) (v : pyval) :
  dict_setdefault (length ds) key v {| arrays := a; dicts := ds ++ [d] |}
  = (Return (), {| arrays := a; dicts := ds ++ [dict_with_default d key v] |}).
Proof.
  unfold dict_setdefault, dict_at. simpl.
  rewrite list_lookup_middle by done. simpl.
  replace (length ds) with (length ds + 0) at 1 by lia.
  by rewrite insert_app_r.
Qed.

Lemma collect_run md labels ms h :
  live h md →
  picked md labels = Return ms →
  FAISSVectorDB.collect md labels h =
  (Return (seq (length (dicts h)) (length ms)),
   {| arrays := arrays h;
      dicts := dicts h ++ map (λ m, candidate_of (dict_at h m)) ms |}).
Proof.
  intros Hlive. revert ms h Hlive.
  induction labels as [|i rest IH]; intros ms h Hlive; simpl.
  - intros [= <-]. simpl. rewrite app_nil_r. by destruct h.
  - case_bool_decide; [|by apply IH].
    destruct (list_getitem md i) as [m|e] eqn:Em; [|done].
    destruct (picked md rest) as [ms'|e] eqn:Ems; [|done].
    intros [= <-].
    rewrite bind_run. unfold lift at 1.
    rewrite bind_run. unfold dict_copy, new_dict.
    rewrite bind_run, setdefault_newest.
    rewrite bind_run, setdefault_newest.
    rewrite bind_run.
    set (h1 := {| arrays := arrays h;
                  dicts := dicts h ++ [candidate_of (dict_at h m)] |}).
    assert (Hlive1 : live h1 md).
    { eapply Forall_impl; [exact Hlive|]. intros r Hr. simpl in *.
      rewrite length_app. simpl. lia. }
    change (dict_with_default (dict_with_default (dict_at h m) "text" (PyStr ""))
              "source" (PyStr "unknown")) with (candidate_of (dict_at h m)).
    fold h1. rewrite (IH ms' h1 Hlive1 eq_refl). simpl.
    rewrite length_app. simpl. rewrite Nat.add_1_r.
    f_equal. f_equal. rewrite <- app_assoc. simpl. f_equal. f_equal.
    apply map_ext_in. intros m' Hm'. f_equal.
    apply (dict_at_grown h). 
    apply picked_elem in Ems. rewrite Forall_forall in Ems.
    unfold live in Hlive. rewrite Forall_forall in Hlive.
    apply Hlive, Ems. by apply list_elem_of_In.
Qed.

Lemma collect_raises md labels (e : exn) h :
  picked md labels = Raise e → fst (FAISSVectorDB.collect md labels h) = Raise e.
Proof.
  revert h. induction labels as [|i rest IH]; intros h; simpl; [done|].
  case_bool_decide; [|by apply IH].
  rewrite bind_run. unfold lift at 1.
  destruct (list_getitem md i) as [m|e'] eqn:Em.
  - destruct (picked md rest) as [ms'|e'] eqn:Ems; [done|].
    intros [= ->].
    rewrite bind_run. unfold dict_copy, new_dict.
    rewrite bind_run, setdefault_newest.
    rewrite bind_run, setdefault_newest.
    rewrite bind_run.
    specialize (IH {| arrays := arrays h;
                      dicts := dicts h ++ [candidate_of (dict_at h m)] |} eq_refl).
    change (dict_with_default (dict_with_default (dict_at h m) "text" (PyStr ""))
              "source" (PyStr "unknown")) with (candidate_of (dict_at h m)).
    destruct (FAISSVectorDB.collect md rest _) as [[rs|e''] h']; simpl in *; congruence.
  - intros [= ->]. done.
Qed.
End Collect.

(** ** FAISSVectorDB.search *)
Section Search.
Context {F : Type} `{!FloatOps F}.
Implicit Types (self : FAISSVectorDB.t F) (h : pyheap F) (f : pydict).

Lemma search_run self (q : list F) (k : Z) (filters : option pydict) h :
  FAISSVectorDB.search self q k filters h =
  match faiss.search (FAISSVectorDB.index self) (fvec_renorm_L2 q) k with
  | Return labels =>
      match FAISSVectorDB.collect (FAISSVectorDB.metadata self) labels h with
      | (Return results, h') => (Return (kept filters h' results), h')
      | (Raise e, h') => (Raise e, h')
      end
  | Raise e => (Raise e, h)
  end.
Proof.
  unfold FAISSVectorDB.search. rewrite bind_run. unfold lift.
  destruct (faiss.search _ _ _) as [labels|e]; [|done].
  rewrite bind_run.
  destruct (FAISSVectorDB.collect _ _ _) as [[results|e] h']; [|done].
  unfold kept. destruct filters as [f|]; [|done].
  destruct (dict_truthy f); done.
Qed.

(** What a search that returns has done to the heap, and what it hands out. *)
Lemma search_returns self (q : list F) (k : Z) (filters : option pydict) h
    (rs : list ref) (h' : pyheap F) :
  live h (FAISSVectorDB.metadata self) →
  FAISSVectorDB.search self q k filters h = (Return rs, h') →
  ∃ ms : list ref,
    Forall (λ m, m ∈ FAISSVectorDB.metadata self) ms
    ∧ h' = {| arrays := arrays h;
              dicts := dicts h ++ map (λ m, candidate_of (dict_at h m)) ms |}
    ∧ rs = kept filters h' (seq (length (dicts h)) (length ms)).
Proof.
  intros Hlive. rewrite search_run.
  destruct (faiss.search _ _ _) as [labels|e]; [|done].
  destruct (picked (FAISSVectorDB.metadata self) labels) as [ms|e] eqn:Ems.
  - rewrite (collect_run _ _ _ _ Hlive Ems). intros [= <- <-].
    exists ms. split; [by eapply picked_elem|]. done.
  - pose proof (collect_raises _ _ _ h Ems) as Hr.
    destruct (FAISSVectorDB.collect _ _ _) as [[results|e'] h'']; simpl in Hr; done.
Qed.

Lemma kept_subseteq (filters : option pydict) h (results : list ref) :
  kept filters h results ⊆ results.
Proof.
  unfold kept. destruct filters as [f|]; [|done].
  destruct (dict_truthy f); [|done].
  intros r Hr. apply list_elem_of_filter in Hr. tauto.
Qed.
End Search.

Lemma candidate_of_keeps (d : pydict) (key : string) (v : pyval) :
  d !! key = Some v → candidate_of d !! key = Some v.
Proof.
  intros Hd. unfold candidate_of, dict_with_default.
  destruct (d !! "text") eqn:Et.
  - destruct (d !! "source") eqn:Es; [done|].
    rewrite lookup_insert_ne; [done|]. intros <-. congruence.
  - destruct (<["text":=PyStr ""]> d !! "source") eqn:Es.
    + rewrite lookup_insert_ne; [done|]. intros <-. congruence.
    + rewrite lookup_insert_ne.
      * rewrite lookup_insert_ne; [done|]. intros <-. congruence.
      * intros <-. rewrite lookup_insert_ne in Es by done. congruence.
Qed.

Lemma candidate_of_other (d : pydict) (key : string) :
  key ≠ "text" → key ≠ "source" → candidate_of d !! key = d !! key.
Proof.
  intros Ht Hs. unfold candidate_of, dict_with_default.
  destruct (d !! "text"); destruct (_ !! "source");
    rewrite ?lookup_insert_ne by done; done.
Qed.

Lemma candidate_of_source (d : pydict) :
  dict_get (candidate_of d) "source" PyNone
  = match d !! "source" with Some v => v | None => PyStr "unknown" end.
Proof.
  unfold dict_get, candidate_of, dict_with_default.
  destruct (d !! "text") eqn:Et.
  - destruct (d !! "source") eqn:Es.
    + by rewrite Es.
    + by rewrite lookup_insert_eq.
  - rewrite lookup_insert_ne by done.
    destruct (d !! "source") eqn:Es.
    + rewrite lookup_insert_ne by done. by rewrite Es.
    + by rewrite lookup_insert_eq.
Qed.

(** ** The flat store on concrete inputs *)

(** C1: on a store with no entries the index answers the label [-1];
    [-1 < len(self.metadata)] holds, and [self.metadata[-1]] raises
    [IndexError].  The search does not return an empty sequence, and the
    retriever built on the store raises with it. *)
Lemma search_on_the_empty_store_raises :
  faiss.search (FAISSVectorDB.index empty_store) (fvec_renorm_L2 [1; 0]%Z) 1
  = Return [-1]%Z
  ∧ fst (FAISSVectorDB.search empty_store [1; 0]%Z 1 None empty_heap)
    = Raise IndexError
  ∧ fst (Retriever.retrieve empty_retriever "tell me about finance" 10 3 None
           empty_heap)
    = Raise IndexError.
Proof. repeat split; reflexivity. Qed.

(** C2: a store with one entry, asked for two candidates, returns two (the
    padding label [-1] selects the last entry once more), not
    [min(2, 1) = 1]. *)
Lemma search_past_the_store_size_returns_top_k :
  faiss.search (FAISSVectorDB.index one_store) (fvec_renorm_L2 [1; 0]%Z) 2
  = Return [0; -1]%Z
  ∧ returned (FAISSVectorDB.search one_store [1; 0]%Z 2 None one_heap)
    = Return [meta "cats are mammals" "a.txt"; meta "cats are mammals" "a.txt"].
Proof. split; reflexivity. Qed.

(** C6: two entries scoring 0 and 1 against the query, three candidates
    asked for: the answer is the entry scoring 1, the entry scoring 0, and
    the entry scoring 1 again, which is not in non-increasing order. *)
Lemma search_past_the_store_size_breaks_the_order :
  map (fvec_inner_product (fvec_renorm_L2 [7; 0]%Z))
      (faiss.xb (FAISSVectorDB.index two_store)) = [0; 1]%Z
  ∧ faiss.search (FAISSVectorDB.index two_store) (fvec_renorm_L2 [7; 0]%Z) 3
    = Return [1; 0; -1]%Z
  ∧ returned (FAISSVectorDB.search two_store [7; 0]%Z 3 None two_heap_added)
    = Return [meta "stocks rose today" "b.txt";
              meta "cats are mammals" "a.txt";
              meta "stocks rose today" "b.txt"].
Proof. repeat split; reflexivity. Qed.


(** Every candidate a search returns is the copy, with the two defaults,
    of an entry of the store; the objects that were in the heap are as
    they were. *)
Lemma search_candidates {F : Type} `{!FloatOps F} (self : FAISSVectorDB.t F)
    (q : list F) (k : Z) (filters : option pydict) (h h' : pyheap F)
    (rs : list ref) :
  live h (FAISSVectorDB.metadata self) →
  FAISSVectorDB.search self q k filters h = (Return rs, h') →
  arrays h' = arrays h
  ∧ (∀ (r : ref) (d : pydict), dicts h !! r = Some d → dicts h' !! r = Some d)
  ∧ Forall (λ c, ∃ m : ref, m ∈ FAISSVectorDB.metadata self
                            ∧ dict_at h' c = candidate_of (dict_at h m)) rs.
Proof.
  intros Hlive Hrun.
  destruct (search_returns _ _ _ _ _ _ _ Hlive Hrun) as (ms & Hms & -> & ->).
  split; [done|]. split.
  - intros r d Hr. simpl. by apply lookup_app_l_Some.
  - apply Forall_forall. intros c Hc.
    apply kept_subseteq in Hc. apply list_elem_of_lookup in Hc as [j Hj].
    apply lookup_seq in Hj as [-> Hj].
    destruct (lookup_lt_is_Some_2 ms j Hj) as [m Hm].
    exists m. split.
    + rewrite Forall_forall in Hms. apply Hms. by eapply list_elem_of_lookup_2.
    + unfold dict_at at 1. simpl.
      rewrite lookup_app_r by lia.
      replace (length (dicts h) + j - length (dicts h)) with j by lia.
      by rewrite list_lookup_fmap, Hm.
Qed.

Lemma candidate_of_source_lookup (d : pydict) :
  candidate_of d !! "source"
  = Some match d !! "source" with Some v => v | None => PyStr "unknown" end.
Proof.
  unfold candidate_of, dict_with_default.
  destruct (d !! "text") eqn:Et.
  - destruct (d !! "source") eqn:Es.
    + by rewrite Es.
    + by rewrite lookup_insert_eq.
  - rewrite lookup_insert_ne by done.
    destruct (d !! "source") eqn:Es.
    + rewrite lookup_insert_ne by done. by rewrite Es.
    + by rewrite lookup_insert_eq.
Qed.

(** C4: no false positive.  Whatever single field a filter names, every
    candidate returned under it holds the value of the filter in that
    field, for stored entries whose [source] is not [None] (the metadata
    of the specification has string values).  The store tests the field
    [source] alone: a filter on another field asks for the candidates
    whose source is [None], and there is none. *)
Theorem search_filter_returns_no_false_positive {F : Type} `{!FloatOps F}
    (self : FAISSVectorDB.t F) (q : list F) (k : Z) (field : string)
    (value : pyval) (h h' : pyheap F) (rs : list ref) :
  live h (FAISSVectorDB.metadata self) →
  Forall (λ m, dict_at h m !! "source" ≠ Some PyNone) (FAISSVectorDB.metadata self) →
  FAISSVectorDB.search self q k (Some {[field := value]}) h = (Return rs, h') →
  Forall (λ c, dict_at h' c !! field = Some value) rs.
Proof.
  intros Hlive Hsrc Hrun.
  assert (Htruthy : dict_truthy ({[field := value]} : pydict) = true).
  { apply bool_decide_eq_true_2. intros Hempty.
    apply (f_equal (λ m : pydict, m !! field)) in Hempty.
    by rewrite lookup_singleton_eq, lookup_empty in Hempty. }
  assert (Hpass : Forall (λ c, dict_get (dict_at h' c) "source" PyNone
                               = dict_get ({[field := value]} : pydict) "source" PyNone)
                    rs).
  { rewrite search_run in Hrun.
    destruct (faiss.search _ _ _) as [labels|e]; [|done].
    destruct (FAISSVectorDB.collect _ _ _) as [[results|e] h'']; [|done].
    injection Hrun as <- <-. unfold kept. rewrite Htruthy.
    apply Forall_forall. intros c Hc. apply list_elem_of_filter in Hc. tauto. }
  destruct (search_candidates _ _ _ _ _ _ _ Hlive Hrun) as (_ & _ & Hcand).
  rewrite Forall_forall in Hpass, Hcand, Hsrc |- *. intros c Hc.
  destruct (Hcand c Hc) as (m & Hm & Hcm). specialize (Hpass c Hc).
  rewrite Hcm in Hpass |- *. rewrite candidate_of_source in Hpass.
  destruct (decide (field = "source")) as [->|Hfield].
  - unfold dict_get in Hpass. rewrite lookup_singleton_eq in Hpass. simpl in Hpass.
    by rewrite candidate_of_source_lookup, Hpass.
  - unfold dict_get in Hpass. rewrite lookup_singleton_ne in Hpass by done.
    simpl in Hpass. specialize (Hsrc m Hm).
    destruct (dict_at h m !! "source") as [v|]; [|done]. by subst v.
Qed.

Lemma search_filter_returns_no_false_positive_witness :
  live three_heap (FAISSVectorDB.metadata three_store)
  ∧ Forall (λ m, dict_at three_heap m !! "source" ≠ Some PyNone)
      (FAISSVectorDB.metadata three_store)
  ∧ Forall (λ c, dict_at
                   (snd (FAISSVectorDB.search three_store [1; 0]%Z 2
                           (Some {["source" := PyStr "b.txt"]}) three_heap)) c
                 !! "source" = Some (PyStr "b.txt")) [4].
Proof.
  assert (Hlive : live three_heap (FAISSVectorDB.metadata three_store))
    by (repeat constructor).
  assert (Hsrc : Forall (λ m, dict_at three_heap m !! "source" ≠ Some PyNone)
                   (FAISSVectorDB.metadata three_store))
    by (repeat constructor; discriminate).
  split; [exact Hlive|]. split; [exact Hsrc|].
  apply (search_filter_returns_no_false_positive three_store [1; 0]%Z 2
           "source" (PyStr "b.txt") three_heap _ [4] Hlive Hsrc).
  reflexivity.
Defined.

(** ** QdrantVectorDB *)
Section Remote.
Context {F : Type} `{!FloatOps F}.
Implicit Types (self : QdrantVectorDB.t F) (h : pyheap F).

Lemma text_and_source_other (d : pydict) (key : string) :
  key ≠ "text" → key ≠ "source" → QdrantVectorDB.text_and_source d !! key = None.
Proof.
  intros Ht Hs. unfold QdrantVectorDB.text_and_source.
  rewrite lookup_insert_ne by done. by rewrite lookup_singleton_ne.
Qed.

Lemma make_points_run (uuid4 : nat → string) (n : nat)
    (pairs : list (list F * ref)) h :
  ∃ pts : list (QdrantVectorDB.point F),
    QdrantVectorDB.make_points uuid4 n pairs h = (Return pts, h)
    ∧ map QdrantVectorDB.payload pts
      = map (λ p, QdrantVectorDB.text_and_source (dict_at h (snd p))) pairs
    ∧ map QdrantVectorDB.vector pts = map fst pairs.
Proof.
  revert n. induction pairs as [|[vec meta0] rest IH]; intros n; simpl.
  - by exists [].
  - destruct (IH (S n)) as (pts & Hrun & Hpay & Hvec).
    eexists. rewrite bind_run. unfold read_dict at 1.
    rewrite bind_run, Hrun. split; [reflexivity|]. simpl.
    by rewrite Hpay, Hvec.
Qed.

Lemma snd_zip_take {A B : Type} (l : list A) (k : list B) :
  map snd (zip l k) = take (length l) k.
Proof.
  revert k. induction l as [|a l IH]; intros [|b k]; simpl; [done..|].
  by rewrite IH.
Qed.

Lemma text_and_source_text (d : pydict) :
  QdrantVectorDB.text_and_source d !! "text" = Some (dict_get d "text" (PyStr "")).
Proof. unfold QdrantVectorDB.text_and_source. by rewrite lookup_insert_eq. Qed.

Lemma text_and_source_source (d : pydict) :
  QdrantVectorDB.text_and_source d !! "source"
  = Some (dict_get d "source" (PyStr "unknown")).
Proof.
  unfold QdrantVectorDB.text_and_source.
  rewrite lookup_insert_ne by done. by rewrite lookup_singleton_eq.
Qed.

(** [add] builds its points without touching the heap and hands them to
    the client; it raises when the client does. *)
Lemma remote_add_run (uuid4 : nat → string) self (vectors : ref)
    (metadata : list ref) h :
  ∃ pts : list (QdrantVectorDB.point F),
    QdrantVectorDB.make_points uuid4 0 (zip (array_at h vectors) metadata) h
    = (Return pts, h)
    ∧ QdrantVectorDB.add uuid4 self vectors metadata h
      = (match QdrantVectorDB.upsert (QdrantVectorDB.client self) pts with
         | Return c => Return {| QdrantVectorDB.client := c |}
         | Raise e => Raise e
         end, h)
    ∧ map QdrantVectorDB.payload pts
      = map (λ m, QdrantVectorDB.text_and_source (dict_at h m))
            (take (length (array_at h vectors)) metadata)
    ∧ map QdrantVectorDB.vector pts = take (length metadata) (array_at h vectors).
Proof.
  destruct (make_points_run uuid4 0 (zip (array_at h vectors) metadata) h)
    as (pts & Hrun & Hpay & Hvec).
  exists pts. split; [exact Hrun|]. split; [|split].
  - unfold QdrantVectorDB.add. rewrite bind_run. unfold read_array at 1.
    rewrite bind_run, Hrun. rewrite bind_run. unfold lift at 1.
    by destruct (QdrantVectorDB.upsert _ _).
  - rewrite Hpay, <- snd_zip_take. by rewrite map_map.
  - rewrite Hvec. clear.
    generalize (array_at h vectors). intros x. revert metadata.
    induction x as [|row x IH]; intros [|m metadata]; simpl; [done..|].
    by rewrite IH.
Qed.

Lemma remote_collect_run (hits : list (QdrantVectorDB.point F)) h :
  QdrantVectorDB.collect hits h =
  (Return (seq (length (dicts h)) (length hits)),
   {| arrays := arrays h;
      dicts := dicts h
               ++ map (λ hit, QdrantVectorDB.text_and_source
                                (QdrantVectorDB.payload hit)) hits |}).
Proof.
  revert h. induction hits as [|hit rest IH]; intros h; simpl.
  - rewrite app_nil_r. by destruct h.
  - rewrite bind_run. unfold new_dict at 1. rewrite bind_run, IH. simpl.
    rewrite length_app. simpl. rewrite Nat.add_1_r.
    by rewrite <- app_assoc.
Qed.
End Remote.




(** ** numpy.argsort *)
Section Argsort.
Context {F : Type} `{!FloatOps F} `{!FloatLaws F}.
Implicit Types (x y : F * nat) (l : list (F * nat)).

Lemma flt_asym (a b : F) : flt a b = true → flt b a = false.
Proof.
  intros Hab. destruct (flt b a) eqn:Hba; [|done].
  by rewrite <- (flt_irrefl a), <- (flt_trans a b a Hab Hba).
Qed.

Lemma insert_asc_perm x l : numpy.insert_asc flt x l ≡ₚ x :: l.
Proof.
  induction l as [|y l IH]; simpl; [done|].
  destruct (flt (fst y) (fst x)); [|done].
  by rewrite IH, Permutation_swap.
Qed.

Lemma insert_asc_sorted x l :
  StronglySorted (flip ranks_before) l →
  Forall (λ y, snd x < snd y) l →
  StronglySorted (flip ranks_before) (numpy.insert_asc flt x l).
Proof.
  induction l as [|y l IH]; simpl; intros Hsorted Hlater.
  - repeat constructor.
  - apply StronglySorted_cons in Hsorted as [Hy Hsorted].
    apply Forall_cons in Hlater as [Hxy Hlater].
    destruct (flt (fst y) (fst x)) eqn:Hyx.
    + apply StronglySorted_cons. split; [|by apply IH].
      rewrite insert_asc_perm. constructor; [|done].
      split; [by apply flt_asym|]. simpl. congruence.
    + apply StronglySorted_cons. split; [|by apply StronglySorted_cons].
      constructor; [by split|].
      rewrite Forall_forall in Hy, Hlater |- *. intros z Hz.
      destruct (Hy z Hz) as [Hzy _]. split; simpl in *.
      * by apply (flt_incomparable_trans _ (fst y)).
      * intros _. by apply Hlater.
Qed.

Lemma sorted_pairs (scores : list F) (n : nat) :
  StronglySorted (flip ranks_before)
    (foldr (numpy.insert_asc flt) [] (zip scores (seq n (length scores)))).
Proof.
  revert n. induction scores as [|s scores IH]; intros n; simpl; [constructor|].
  apply insert_asc_sorted; [apply IH|].
  assert (Hperm : foldr (numpy.insert_asc flt) [] (zip scores (seq (S n) (length scores)))
                  ≡ₚ zip scores (seq (S n) (length scores))).
  { generalize (zip scores (seq (S n) (length scores))).
    intros l. induction l as [|y l IHl]; simpl; [done|].
    by rewrite insert_asc_perm, IHl. }
  rewrite Hperm. apply Forall_forall. intros [s' i] Hin. simpl.
  apply list_elem_of_lookup in Hin as [j Hj].
  apply lookup_zip_with_Some in Hj as (a & b & [= <- <-] & _ & Hb).
  apply lookup_seq in Hb as [-> _]. lia.
Qed.

Lemma foldr_insert_asc_perm l : foldr (numpy.insert_asc flt) [] l ≡ₚ l.
Proof.
  induction l as [|y l IH]; simpl; [done|]. by rewrite insert_asc_perm, IH.
Qed.

Lemma sorted_rev (R : relation (F * nat)) l :
  StronglySorted (flip R) l → StronglySorted R (rev l).
Proof.
  induction l as [|y l IH]; simpl; [constructor|].
  intros [Hy Hl]%StronglySorted_cons.
  apply StronglySorted_app. split; [|split; [by apply IH|repeat constructor]].
  intros x1 x2 Hx1 Hx2. apply list_elem_of_singleton in Hx2 as ->.
  rewrite Forall_forall in Hy. apply Hy.
  apply list_elem_of_In, in_rev, list_elem_of_In. exact Hx1.
Qed.

(** The insertion sort, reversed: every position once, best score first,
    equal scores in reverse. *)
Lemma reversed_insertion_argsort (scores : list F) :
  ∃ order : list (F * nat),
    rev (numpy.insertion_argsort flt scores) = map snd order
    ∧ order ≡ₚ zip scores (seq 0 (length scores))
    ∧ StronglySorted ranks_before order.
Proof.
  exists (rev (foldr (numpy.insert_asc flt) [] (zip scores (seq 0 (length scores))))).
  split; [|split].
  - unfold numpy.insertion_argsort. by rewrite map_rev.
  - by rewrite <- Permutation_rev, foldr_insert_asc_perm.
  - apply sorted_rev, sorted_pairs.
Qed.

Lemma sorted_weaken (R R' : relation (F * nat)) l :
  (∀ x y, R x y → R' x y) → StronglySorted R l → StronglySorted R' l.
Proof.
  intros Himpl. induction 1 as [|x l Hl IH Hx]; constructor; [done|].
  eapply Forall_impl; [exact Hx|]. intros y. apply Himpl.
Qed.

Lemma insertion_ascending (scores : list F) :
  numpy.ascending scores (numpy.insertion_argsort flt scores).
Proof.
  exists (foldr (numpy.insert_asc flt) [] (zip scores (seq 0 (length scores)))).
  split; [done|]. split; [apply foldr_insert_asc_perm|].
  apply (sorted_weaken (flip ranks_before)); [|apply (sorted_pairs scores 0)].
  intros x y [Hxy _]. exact Hxy.
Qed.

Lemma argsort_short (scores : list F) :
  length scores ≤ 16 → numpy.argsort scores = numpy.insertion_argsort flt scores.
Proof.
  intros Hlen. unfold numpy.argsort.
  by rewrite (proj2 (Nat.leb_le _ _) Hlen).
Qed.

Lemma argsort_ascending `{!SortLaws F} (scores : list F) :
  numpy.ascending scores (numpy.argsort scores).
Proof.
  unfold numpy.argsort. destruct (length scores <=? 16)%nat.
  - apply insertion_ascending.
  - apply aquicksort_ascending.
Qed.

(** An ascending order read backwards: every position once, no score
    below a later one. *)
Lemma reversed_ascending (scores : list F) (idx : list nat) :
  numpy.ascending scores idx →
  ∃ order : list (F * nat),
    rev idx = map snd order
    ∧ order ≡ₚ zip scores (seq 0 (length scores))
    ∧ StronglySorted (λ x y, flt (fst x) (fst y) = false) order.
Proof.
  intros (order & -> & Hperm & Hsorted). exists (rev order).
  split; [by rewrite map_rev|]. split; [by rewrite <- Permutation_rev|].
  by apply sorted_rev.
Qed.
End Argsort.

#[global] Instance axis_sort_laws : SortLaws Z.
Proof.
  split. intros scores.
  pose (downwards := {| flt := λ a b, (b <? a)%Z; fvec_renorm_L2 := map Z.sgn;
                        fvec_inner_product := dot;
                        aquicksort := λ _, [] |} : FloatOps Z).
  assert (Hlaws : @FloatLaws Z downwards).
  { split.
    - intros v. apply length_map.
    - intros x. apply Z.ltb_irrefl.
    - intros x y z Hxy Hyz. simpl in *.
      apply Z.ltb_lt in Hxy, Hyz. apply Z.ltb_lt. lia.
    - intros x y z Hxy Hyz. simpl in *.
      apply Z.ltb_ge in Hxy, Hyz. apply Z.ltb_ge. lia. }
  exists (rev (foldr (numpy.insert_asc (λ a b, (b <? a)%Z)) []
                 (zip scores (seq 0 (length scores))))).
  split; [|split].
  - simpl. unfold numpy.insertion_argsort. by rewrite map_rev.
  - rewrite <- Permutation_rev.
    exact (foldr_insert_asc_perm (FloatOps0 := downwards) _).
  - apply sorted_rev.
    apply (sorted_weaken (flip (@ranks_before Z downwards)));
      [|exact (sorted_pairs (FloatOps0 := downwards) (FloatLaws0 := Hlaws) scores 0)].
    intros x y [Hxy _]. exact Hxy.
Qed.

(** ** Retriever.retrieve *)
Section Retrieve.
Context {F : Type} `{!FloatOps F} {DB : Type} `{!VectorDB F DB}.
Implicit Types (h : pyheap F) (cs : list ref).

Lemma list_getitem_nat {A : Type} (l : list A) (i : nat) (x : A) :
  l !! i = Some x → list_getitem l (Z.of_nat i) = Return x.
Proof.
  intros Hx. pose proof (lookup_lt_Some _ _ _ Hx) as Hlt.
  unfold list_getitem. cbv zeta.
  rewrite (bool_decide_eq_false_2 (Z.of_nat i < 0)%Z) by lia.
  rewrite bool_decide_eq_true_2 by lia.
  by rewrite Nat2Z.id, Hx.
Qed.

Lemma pairs_run (query : string) cs h :
  Forall (λ c, is_Some (dict_at h c !! "text")) cs →
  mapM (Retriever.pair_of query) cs h
  = (Return (map (λ c, (query, dict_get (dict_at h c) "text" PyNone)) cs), h).
Proof.
  induction cs as [|c cs IH]; intros Hcs; simpl; [done|].
  apply Forall_cons in Hcs as [[v Hv] Hcs].
  rewrite bind_run. unfold Retriever.pair_of at 1.
  rewrite bind_run. unfold read_dict at 1.
  rewrite bind_run. unfold lift, dict_getitem, dict_get. rewrite Hv. simpl.
  rewrite bind_run, (IH Hcs). done.
Qed.

Lemma getitems_run cs (idx : list nat) h :
  Forall (λ i, i < length cs) idx →
  ∃ rs : list ref,
    mapM (λ i : nat, lift (list_getitem cs (Z.of_nat i)) : py F ref) idx h
    = (Return rs, h)
    ∧ Forall2 (λ r i, cs !! i = Some r) rs idx.
Proof.
  induction idx as [|i idx IH]; intros Hidx; simpl.
  - by exists [].
  - apply Forall_cons in Hidx as [Hi Hidx].
    destruct (IH Hidx) as (rs & Hrun & Hrs).
    destruct (lookup_lt_is_Some_2 cs i Hi) as [r Hr].
    exists (r :: rs). split; [|by constructor].
    rewrite bind_run. unfold lift at 1. rewrite (list_getitem_nat _ _ _ Hr).
    by rewrite bind_run, Hrun.
Qed.
End Retrieve.

(** C5, as the code has it.  With a reranker and at least one valid
    candidate, every (query, text) pair of the valid candidates is scored,
    and the answer is the first [top_k_final] of the valid candidates
    taken best rerank score first: no candidate scores below a later one.
    The order among candidates whose rerank scores are equal is whatever
    the reversed [np.argsort] leaves; nothing puts it back to the order
    before reranking. *)
Theorem retrieve_reranks_by_descending_score {F : Type} `{!FloatOps F}
    `{!FloatLaws F} `{!SortLaws F} {DB : Type} `{!VectorDB F DB}
    (self : Retriever.t F DB) (model : Retriever.CrossEncoder F)
    (query : string) (top_k_initial top_k_final : Z) (filters : option pydict)
    (h h1 : pyheap F) (query_vec : list F) (candidates : list ref) :
  Retriever.reranker self = Some model →
  list_getitem (Retriever.embed (Retriever.embedder self) [query]) 0 = Return query_vec →
  vdb_search (Retriever.db self) query_vec top_k_initial filters h
  = (Return candidates, h1) →
  let valid := filter (λ c, is_Some (dict_at h1 c !! "text")) candidates in
  let scores :=
    Retriever.predict model
      (map (λ c, (query, dict_get (dict_at h1 c) "text" PyNone)) valid) in
  valid ≠ [] →
  length scores = length valid →
  (0 ≤ top_k_final)%Z →
  ∃ (order : list (F * nat)) (rs : list ref),
    order ≡ₚ zip scores (seq 0 (length valid))
    ∧ StronglySorted (λ x y, flt (fst x) (fst y) = false) order
    ∧ Retriever.retrieve self query top_k_initial top_k_final filters h
      = (Return rs, h1)
    ∧ Forall2 (λ r p, valid !! snd p = Some r) rs (take (Z.to_nat top_k_final) order).
Proof.
  intros Hmodel Hvec Hsearch valid scores Hvalid Hlen Hk.
  assert (Hscores : scores = Retriever.predict model
            (map (λ c, (query, dict_get (dict_at h1 c) "text" PyNone)) valid))
    by reflexivity.
  assert (Hv : valid = filter (λ c, is_Some (dict_at h1 c !! "text")) candidates)
    by reflexivity.
  clearbody scores. clearbody valid.
  assert (Htext : Forall (λ c, is_Some (dict_at h1 c !! "text")) valid).
  { apply Forall_forall. intros c Hc. rewrite Hv in Hc.
    apply list_elem_of_filter in Hc. tauto. }
  destruct (reversed_ascending scores _ (argsort_ascending scores))
    as (order & Hrev & Hperm & Hsorted).
  assert (Hidx : Forall (λ i, i < length valid)
                   (map snd (take (Z.to_nat top_k_final) order))).
  { apply Forall_forall. intros i Hi.
    apply list_elem_of_fmap in Hi as ([s j] & -> & Hin). simpl.
    apply subseteq_take in Hin. rewrite Hperm in Hin.
    apply list_elem_of_lookup in Hin as [n Hn].
    apply lookup_zip_with_Some in Hn as (a & b & [= <- <-] & _ & Hb).
    apply lookup_seq in Hb as [-> Hb]. lia. }
  destruct (getitems_run valid _ h1 Hidx) as (rs & Hrun & Hrs).
  exists order, rs. split; [by rewrite <- Hlen|]. split; [done|]. split.
  - unfold Retriever.retrieve.
    rewrite bind_run. unfold lift at 1. rewrite Hvec.
    rewrite bind_run, Hsearch.
    rewrite bind_run. unfold Retriever.keep_valid at 1. rewrite <- Hv, Hmodel.
    destruct valid as [|c valid'] eqn:Ev; [done|]. rewrite <- Ev in *.
    rewrite bind_run, (pairs_run query valid h1 Htext), <- Hscores, Hrev.
    unfold slice_to. rewrite bool_decide_eq_true_2 by done.
    rewrite <- fmap_take. exact Hrun.
  - apply Forall2_fmap_r in Hrs. exact Hrs.
Qed.

Lemma retrieve_reranks_by_descending_score_witness :
  let model : Retriever.CrossEncoder Z := {| Retriever.predict := map (λ _, 5%Z) |} in
  let query := "tell me about finance" in
  let h1 := snd (FAISSVectorDB.search two_store [7; 0]%Z 2 None two_heap_added) in
  let valid := filter (λ c, is_Some (dict_at h1 c !! "text")) [2; 3] in
  let scores :=
    Retriever.predict model
      (map (λ c, (query, dict_get (dict_at h1 c) "text" PyNone)) valid) in
  Retriever.reranker level_retriever = Some model
  ∧ valid ≠ []
  ∧ length scores = length valid
  ∧ (0 ≤ 2)%Z
  ∧ ∃ (order : list (Z * nat)) (rs : list ref),
      order ≡ₚ zip scores (seq 0 (length valid))
      ∧ StronglySorted (λ x y, flt (fst x) (fst y) = false) order
      ∧ Retriever.retrieve level_retriever query 2 2 None two_heap_added
        = (Return rs, h1)
      ∧ Forall2 (λ r p, valid !! snd p = Some r) rs (take (Z.to_nat 2) order).
Proof.
  intros model query h1 valid scores.
  assert (Hvalid : valid ≠ []) by discriminate.
  assert (Hlen : length scores = length valid) by reflexivity.
  assert (Hk : (0 ≤ 2)%Z) by lia.
  split; [reflexivity|]. split; [exact Hvalid|]. split; [exact Hlen|].
  split; [exact Hk|].
  exact (retrieve_reranks_by_descending_score level_retriever model query 2 2 None
           two_heap_added h1 [7; 0]%Z [2; 3] eq_refl eq_refl eq_refl Hvalid Hlen Hk).
Defined.

(** C5 as stated fails: the two candidates get the same rerank score, and
    the answer has them in the reverse of the order the search gave. *)
Lemma retrieve_reverses_equal_rerank_scores :
  returned (FAISSVectorDB.search two_store [7; 0]%Z 2 None two_heap_added)
  = Return [meta "stocks rose today" "b.txt"; meta "cats are mammals" "a.txt"]
  ∧ match Retriever.reranker level_retriever with
    | Some model =>
        Retriever.predict model
          [("tell me about finance", PyStr "stocks rose today");
           ("tell me about finance", PyStr "cats are mammals")]
    | None => []
    end = [5; 5]%Z
  ∧ returned (Retriever.retrieve level_retriever "tell me about finance" 2 2 None
                two_heap_added)
    = Return [meta "cats are mammals" "a.txt"; meta "stocks rose today" "b.txt"].
Proof. repeat split; reflexivity. Qed.

(** ** The labels of an index search, and the size of an answer *)
Section Labels.
Context {F : Type} `{!FloatOps F}.
Implicit Types (idx : faiss.IndexFlatIP F) (md ms : list ref) (labels : list Z).

Lemma insert_desc_perm (x : F * Z) (l : list (F * Z)) :
  faiss.insert_desc x l ≡ₚ x :: l.
Proof.
  induction l as [|y l IH]; simpl; [done|].
  destruct (flt (fst y) (fst x)); [done|].
  by rewrite IH, Permutation_swap.
Qed.

Lemma fold_insert_desc_perm (l acc : list (F * Z)) :
  fold_left (λ acc x, faiss.insert_desc x acc) l acc ≡ₚ l ++ acc.
Proof.
  revert acc. induction l as [|x l IH]; intros acc; simpl; [done|].
  by rewrite IH, insert_desc_perm, Permutation_middle.
Qed.

Lemma ranked_labels idx (q : list F) :
  Forall (λ i, (0 ≤ i < Z.of_nat (faiss.ntotal idx))%Z) (faiss.ranked idx q).
Proof.
  unfold faiss.ranked. apply Forall_forall. intros i Hi.
  apply list_elem_of_fmap in Hi as ([s j] & -> & Hin). simpl.
  rewrite fold_insert_desc_perm, app_nil_r in Hin.
  apply list_elem_of_lookup in Hin as [n Hn].
  apply lookup_zip_with_Some in Hn as (a & b & [= <- <-] & _ & Hb).
  rewrite list_lookup_fmap in Hb.
  destruct (seq 0 (faiss.ntotal idx) !! n) as [m|] eqn:Em; [|done].
  injection Hb as <-. apply lookup_seq in Em as [-> Hlt]. lia.
Qed.

Lemma search_labels idx (q : list F) (k : Z) labels :
  faiss.search idx q k = Return labels →
  length labels = Z.to_nat k
  ∧ Forall (λ i, (-1 ≤ i < Z.of_nat (faiss.ntotal idx))%Z) labels.
Proof.
  unfold faiss.search.
  destruct (negb _); [done|]. case_bool_decide; [done|].
  intros [= <-]. split.
  - rewrite length_app, length_replicate, length_take. lia.
  - apply Forall_app. split.
    + apply Forall_take. eapply Forall_impl; [apply ranked_labels|].
      simpl. intros i Hi. lia.
    + apply Forall_replicate.
      unfold faiss.ntotal. lia.
Qed.

Lemma search_labels_empty idx (q : list F) (k : Z) :
  faiss.xb idx = [] → length q = faiss.d idx → (1 ≤ k)%Z →
  ∃ rest : list Z, faiss.search idx q k = Return ((-1)%Z :: rest).
Proof.
  intros Hxb Hq Hk. unfold faiss.search, faiss.ranked, faiss.ntotal.
  rewrite Hxb, Hq, Nat.eqb_refl. simpl.
  rewrite bool_decide_eq_false_2 by lia.
  destruct (Z.to_nat k) as [|n] eqn:En; [lia|].
  simpl. by eexists.
Qed.

(** As many references are selected as there are labels, when every label
    is [-1] or a position of the list. *)
Lemma picked_all md labels :
  md ≠ [] →
  Forall (λ i, (-1 ≤ i < Z.of_nat (length md))%Z) labels →
  ∃ ms, picked md labels = Return ms ∧ length ms = length labels.
Proof.
  intros Hmd. induction labels as [|i rest IH]; intros Hl; simpl.
  - by exists [].
  - apply Forall_cons in Hl as [Hi Hl]. destruct (IH Hl) as (ms & -> & Hlen).
    simpl in Hi. rewrite bool_decide_eq_true_2 by lia.
    assert (Hpos : 0 < length md) by (destruct md; [done|simpl; lia]).
    assert (Hget : ∃ m, list_getitem md i = Return m).
    { unfold list_getitem. cbv zeta.
      destruct (bool_decide (i < 0)%Z) eqn:Hneg.
      - apply bool_decide_eq_true in Hneg.
        rewrite bool_decide_eq_true_2 by lia.
        destruct (lookup_lt_is_Some_2 md (Z.to_nat (i + Z.of_nat (length md))))
          as [m Hm]; [lia|].
        rewrite Hm. by exists m.
      - apply bool_decide_eq_false in Hneg.
        rewrite bool_decide_eq_true_2 by lia.
        destruct (lookup_lt_is_Some_2 md (Z.to_nat i)) as [m Hm]; [lia|].
        rewrite Hm. by exists m. }
    destruct Hget as [m ->]. exists (m :: ms). split; [done|]. simpl. lia.
Qed.

Lemma picked_length md labels ms :
  picked md labels = Return ms → length ms ≤ length labels.
Proof.
  revert ms. induction labels as [|i rest IH]; intros ms; simpl.
  - by intros [= <-].
  - case_bool_decide.
    + destruct (list_getitem md i); [|done].
      destruct (picked md rest) as [ms'|]; [|done].
      intros [= <-]. simpl. specialize (IH ms' eq_refl). lia.
    + intros Hp. specialize (IH ms Hp). lia.
Qed.
End Labels.

(** On every flat store without entries, whatever its dimension, a search
    with a query of that dimension and [top_k ≥ 1] raises [IndexError]. *)
Theorem search_raises_on_every_empty_store {F : Type} `{!FloatOps F}
    `{!FloatLaws F} (self : FAISSVectorDB.t F) (q : list F) (k : Z)
    (filters : option pydict) (h : pyheap F) :
  faiss.xb (FAISSVectorDB.index self) = [] →
  FAISSVectorDB.metadata self = [] →
  length q = faiss.d (FAISSVectorDB.index self) →
  (1 ≤ k)%Z →
  fst (FAISSVectorDB.search self q k filters h) = Raise IndexError.
Proof.
  intros Hxb Hmd Hq Hk. rewrite search_run.
  destruct (search_labels_empty (FAISSVectorDB.index self) (fvec_renorm_L2 q) k)
    as [rest ->]; [done|by rewrite fvec_renorm_L2_length|done|].
  pose proof (collect_raises (FAISSVectorDB.metadata self) ((-1)%Z :: rest)
                IndexError h) as Hraise.
  rewrite Hmd in Hraise |- *. specialize (Hraise eq_refl).
  destruct (FAISSVectorDB.collect _ _ _) as [[rs|e] h']; simpl in *; congruence.
Qed.

Lemma search_raises_on_every_empty_store_witness :
  faiss.xb (FAISSVectorDB.index empty_store) = []
  ∧ FAISSVectorDB.metadata empty_store = []
  ∧ length [3; 0]%Z = faiss.d (FAISSVectorDB.index empty_store)
  ∧ (1 ≤ 5)%Z
  ∧ fst (FAISSVectorDB.search empty_store [3; 0]%Z 5
           (Some {["source" := PyStr "a.txt"]}) empty_heap) = Raise IndexError.
Proof.
  split; [reflexivity|]. split; [reflexivity|]. split; [reflexivity|].
  split; [lia|].
  apply (search_raises_on_every_empty_store empty_store [3; 0]%Z 5);
    [reflexivity..|lia].
Defined.

(** A flat store that holds as many metadata entries as vectors, at least
    one, answers a search without filter with exactly [top_k] candidates,
    however few entries it holds. *)
Theorem search_returns_top_k_candidates {F : Type} `{!FloatOps F}
    `{!FloatLaws F} (self : FAISSVectorDB.t F) (q : list F) (k : Z)
    (h : pyheap F) :
  FAISSVectorDB.metadata self ≠ [] →
  length (FAISSVectorDB.metadata self) = faiss.ntotal (FAISSVectorDB.index self) →
  live h (FAISSVectorDB.metadata self) →
  length q = faiss.d (FAISSVectorDB.index self) →
  (1 ≤ k)%Z →
  ∃ (rs : list ref) (h' : pyheap F),
    FAISSVectorDB.search self q k None h = (Return rs, h')
    ∧ length rs = Z.to_nat k.
Proof.
  intros Hmd Hn Hlive Hq Hk. rewrite search_run.
  destruct (faiss.search (FAISSVectorDB.index self) (fvec_renorm_L2 q) k)
    as [labels|e] eqn:Hs.
  - apply search_labels in Hs as [Hlen Hrange]. rewrite <- Hn in Hrange.
    destruct (picked_all _ _ Hmd Hrange) as (ms & Hms & Hlen').
    rewrite (collect_run _ _ _ _ Hlive Hms). eexists _, _. split; [reflexivity|].
    simpl. rewrite length_seq. congruence.
  - unfold faiss.search in Hs.
    rewrite fvec_renorm_L2_length, Hq, Nat.eqb_refl in Hs. simpl in Hs.
    rewrite bool_decide_eq_false_2 in Hs by lia. done.
Qed.

Lemma search_returns_top_k_candidates_witness :
  FAISSVectorDB.metadata one_store ≠ []
  ∧ live one_heap (FAISSVectorDB.metadata one_store)
  ∧ (1 ≤ 4)%Z
  ∧ ∃ (rs : list ref) (h' : pyheap Z),
      FAISSVectorDB.search one_store [1; 0]%Z 4 None one_heap = (Return rs, h')
      ∧ length rs = Z.to_nat 4.
Proof.
  assert (Hmd : FAISSVectorDB.metadata one_store ≠ []) by discriminate.
  assert (Hlive : live one_heap (FAISSVectorDB.metadata one_store))
    by (repeat constructor).
  assert (Hk : (1 ≤ 4)%Z) by lia.
  split; [exact Hmd|]. split; [exact Hlive|]. split; [exact Hk|].
  exact (search_returns_top_k_candidates one_store [1; 0]%Z 4 one_heap
           Hmd eq_refl Hlive eq_refl Hk).
Defined.

(** A search never returns more than [top_k] candidates, with or without
    a filter. *)
Theorem search_returns_at_most_top_k {F : Type} `{!FloatOps F}
    (self : FAISSVectorDB.t F) (q : list F) (k : Z) (filters : option pydict)
    (h h' : pyheap F) (rs : list ref) :
  live h (FAISSVectorDB.metadata self) →
  FAISSVectorDB.search self q k filters h = (Return rs, h') →
  length rs ≤ Z.to_nat k.
Proof.
  intros Hlive Hrun. rewrite search_run in Hrun.
  destruct (faiss.search _ _ _) as [labels|e] eqn:Hs; [|done].
  apply search_labels in Hs as [Hlen _].
  destruct (picked (FAISSVectorDB.metadata self) labels) as [ms|e] eqn:Hms.
  - rewrite (collect_run _ _ _ _ Hlive Hms) in Hrun. injection Hrun as <- _.
    apply picked_length in Hms.
    etransitivity; [apply submseteq_length|].
    + apply sublist_submseteq.
      unfold kept. destruct filters as [f|]; [|reflexivity].
      destruct (dict_truthy f); [apply sublist_filter|reflexivity].
    + rewrite length_seq. lia.
  - pose proof (collect_raises _ _ _ h Hms) as Hr.
    destruct (FAISSVectorDB.collect _ _ _) as [[results|e'] h'']; simpl in Hr; done.
Qed.

Lemma search_returns_at_most_top_k_witness :
  live three_heap (FAISSVectorDB.metadata three_store)
  ∧ length [4] ≤ Z.to_nat 2.
Proof.
  assert (Hlive : live three_heap (FAISSVectorDB.metadata three_store))
    by (repeat constructor).
  split; [exact Hlive|].
  apply (search_returns_at_most_top_k three_store [1; 0]%Z 2
           (Some {["source" := PyStr "b.txt"]}) three_heap
           (snd (FAISSVectorDB.search three_store [1; 0]%Z 2
                   (Some {["source" := PyStr "b.txt"]}) three_heap)) [4] Hlive).
  reflexivity.
Defined.

(** The candidates of a search are new objects: no reference held by the
    store is handed out, so changing a candidate cannot change a stored
    entry. *)
Theorem search_hands_out_copies {F : Type} `{!FloatOps F}
    (self : FAISSVectorDB.t F) (q : list F) (k : Z) (filters : option pydict)
    (h h' : pyheap F) (rs : list ref) :
  live h (FAISSVectorDB.metadata self) →
  FAISSVectorDB.search self q k filters h = (Return rs, h') →
  Forall (λ c, length (dicts h) ≤ c ∧ c ∉ FAISSVectorDB.metadata self) rs.
Proof.
  intros Hlive Hrun.
  destruct (search_returns _ _ _ _ _ _ _ Hlive Hrun) as (ms & _ & _ & ->).
  apply Forall_forall. intros c Hc. apply kept_subseteq in Hc.
  apply list_elem_of_lookup in Hc as [j Hj]. apply lookup_seq in Hj as [-> _].
  split; [lia|]. intros Hin.
  unfold live in Hlive. rewrite Forall_forall in Hlive.
  specialize (Hlive _ Hin). simpl in Hlive. lia.
Qed.

Lemma search_hands_out_copies_witness :
  live three_heap (FAISSVectorDB.metadata three_store)
  ∧ Forall (λ c, length (dicts three_heap) ≤ c
                 ∧ c ∉ FAISSVectorDB.metadata three_store) [3; 4].
Proof.
  assert (Hlive : live three_heap (FAISSVectorDB.metadata three_store))
    by (repeat constructor).
  split; [exact Hlive|].
  apply (search_hands_out_copies three_store [1; 0]%Z 2 None three_heap
           (snd (FAISSVectorDB.search three_store [1; 0]%Z 2 None three_heap))
           [3; 4] Hlive).
  reflexivity.
Defined.

(** ** Chunker, the fixed strategy *)
Section Fixed.
Implicit Types (text : str) (s n k len : nat).

Lemma py_slice_window {A : Type} (l : list A) k s :
  py_slice l (Z.of_nat k) (Z.of_nat k + Z.of_nat s) = take s (drop k l).
Proof.
  unfold py_slice. cbv zeta.
  rewrite !bool_decide_eq_false_2 by lia.
  destruct (decide (k ≤ length l)) as [Hk|Hk].
  - replace (Z.to_nat (Z.min (Z.of_nat (length l)) (Z.max 0 (Z.of_nat k)))) with k by lia.
    destruct (decide (k + s ≤ length l)) as [Hs|Hs].
    + f_equal. lia.
    + rewrite !take_ge; [done|rewrite length_drop; lia|rewrite length_drop; lia].
  - rewrite (drop_ge l k) by lia. rewrite take_nil.
    rewrite drop_ge by lia. apply take_nil.
Qed.

Lemma concat_windows text s n :
  concat (map (λ k, take s (drop (k * s) text)) (seq 0 n)) = take (n * s) text.
Proof.
  induction n as [|n IH]; [by rewrite take_0|].
  rewrite seq_S, map_app, concat_app, IH. simpl.
  rewrite app_nil_r, take_take_drop. f_equal. lia.
Qed.

Lemma windows_cover len s : 0 < s → len ≤ (len + s - 1) / s * s.
Proof.
  intros Hs.
  pose proof (Nat.div_mod_eq (len + s - 1) s) as Hd.
  pose proof (Nat.mod_upper_bound (len + s - 1) s) as Hm. nia.
Qed.

Lemma windows_tight len s k : 0 < s → k < (len + s - 1) / s → k * s < len.
Proof.
  intros Hs Hk.
  pose proof (Nat.div_mod_eq (len + s - 1) s) as Hd.
  pose proof (Nat.mod_upper_bound (len + s - 1) s) as Hm. nia.
Qed.

Lemma fixed_run (self : Chunker.t) (tok : str → list str) text :
  Chunker.strategy self = "fixed" →
  (0 < Chunker.chunk_size self)%Z →
  Chunker.chunk tok self text =
  Chunker.Chunks
    (map (λ k, take (Z.to_nat (Chunker.chunk_size self))
                 (drop (k * Z.to_nat (Chunker.chunk_size self)) text))
       (seq 0 ((length text + Z.to_nat (Chunker.chunk_size self) - 1)
               / Z.to_nat (Chunker.chunk_size self)))).
Proof.
  intros Hst Hsize. destruct self as [st size]. simpl in *. subst st.
  assert (Hs : ∃ s, size = Z.of_nat s ∧ 0 < s) by (exists (Z.to_nat size); lia).
  destruct Hs as (s & -> & Hs). rewrite Nat2Z.id.
  unfold Chunker.chunk. simpl. unfold range_from_zero.
  rewrite bool_decide_eq_false_2 by lia. rewrite bool_decide_eq_true_2 by lia.
  f_equal. rewrite map_map.
  replace (Z.to_nat ((Z.of_nat (length text) + Z.of_nat s - 1) / Z.of_nat s))
    with ((length text + s - 1) / s).
  - apply map_ext. intros k. rewrite <- Nat2Z.inj_mul. apply py_slice_window.
  - replace (Z.of_nat (length text) + Z.of_nat s - 1)%Z
      with (Z.of_nat (length text + s - 1)) by lia.
    rewrite <- Nat2Z.inj_div. by rewrite Nat2Z.id.
Qed.
End Fixed.

(** The fixed strategy with a positive chunk size cuts the text into
    pieces that, put together again, are the text; no piece is empty. *)
Theorem fixed_chunks_partition_the_text (tok : str → list str)
    (self : Chunker.t) (text : str) :
  Chunker.strategy self = "fixed" →
  (0 < Chunker.chunk_size self)%Z →
  ∃ chunks : list str,
    Chunker.chunk tok self text = Chunker.Chunks chunks
    ∧ concat chunks = text
    ∧ Forall (λ c, c ≠ []) chunks.
Proof.
  intros Hst Hsize. rewrite (fixed_run _ _ _ Hst Hsize).
  set (s := Z.to_nat (Chunker.chunk_size self)).
  assert (Hs : 0 < s) by (subst s; lia).
  eexists. split; [reflexivity|]. split.
  - rewrite concat_windows. apply take_ge. by apply windows_cover.
  - apply Forall_forall. intros c Hc.
    apply list_elem_of_fmap in Hc as (k & -> & Hk).
    apply list_elem_of_lookup in Hk as [j Hj]. apply lookup_seq in Hj as [-> Hj].
    simpl in Hj. apply windows_tight in Hj; [|done].
    intros Hnil. apply (f_equal length) in Hnil.
    rewrite length_take, length_drop in Hnil. simpl in Hnil. lia.
Qed.

Lemma fixed_chunks_partition_the_text_witness :
  let self := Chunker.__init__ "fixed" 4 in
  let text := String.list_ascii_of_string "abcdefghij" in
  Chunker.strategy self = "fixed"
  ∧ (0 < Chunker.chunk_size self)%Z
  ∧ ∃ chunks : list str,
      Chunker.chunk (after_full_stops []) self text = Chunker.Chunks chunks
      ∧ concat chunks = text
      ∧ Forall (λ c, c ≠ []) chunks.
Proof.
  intros self text.
  assert (Hsize : (0 < Chunker.chunk_size self)%Z) by (simpl; lia).
  split; [reflexivity|]. split; [exact Hsize|].
  exact (fixed_chunks_partition_the_text (after_full_stops []) self text eq_refl Hsize).
Defined.

(** The fixed strategy with a positive chunk size [s] on a text of [n]
    characters gives [ceil(n / s)] chunks; each but the last has exactly
    [s] characters, and the last has between 1 and [s]. *)
Theorem fixed_chunks_have_the_chunk_size (tok : str → list str)
    (self : Chunker.t) (text : str) :
  Chunker.strategy self = "fixed" →
  (0 < Chunker.chunk_size self)%Z →
  ∃ chunks : list str,
    Chunker.chunk tok self text = Chunker.Chunks chunks
    ∧ Z.of_nat (length chunks)
      = ((Z.of_nat (length text) + Chunker.chunk_size self - 1)
         / Chunker.chunk_size self)%Z
    ∧ ∀ (i : nat) (c : str),
        chunks !! i = Some c →
        (0 < Z.of_nat (length c) ≤ Chunker.chunk_size self)%Z
        ∧ (S i < length chunks → Z.of_nat (length c) = Chunker.chunk_size self).
Proof.
  intros Hst Hsize. rewrite (fixed_run _ _ _ Hst Hsize).
  destruct self as [st size]. simpl in *.
  assert (Hs : ∃ s, size = Z.of_nat s ∧ 0 < s) by (exists (Z.to_nat size); lia).
  destruct Hs as (s & -> & Hs). rewrite Nat2Z.id.
  eexists. split; [reflexivity|]. rewrite length_map, length_seq. split.
  - replace (Z.of_nat (length text) + Z.of_nat s - 1)%Z
      with (Z.of_nat (length text + s - 1)) by lia.
    by rewrite <- Nat2Z.inj_div.
  - intros i c Hc. rewrite list_lookup_fmap in Hc.
    destruct (seq 0 _ !! i) as [k|] eqn:Hk; [|done].
    apply lookup_seq in Hk as [-> Hk]. simpl in Hk, Hc. injection Hc as <-.
    pose proof (windows_tight _ _ _ Hs Hk) as Hlt.
    rewrite length_take, length_drop. split; [lia|].
    intros Hnext. pose proof (windows_tight _ _ (S i) Hs Hnext) as Hlt'. lia.
Qed.

Lemma fixed_chunks_have_the_chunk_size_witness :
  let self := Chunker.__init__ "fixed" 4 in
  let text := String.list_ascii_of_string "abcdefghij" in
  Chunker.strategy self = "fixed"
  ∧ (0 < Chunker.chunk_size self)%Z
  ∧ ∃ chunks : list str,
      Chunker.chunk (after_full_stops []) self text = Chunker.Chunks chunks
      ∧ Z.of_nat (length chunks) = ((Z.of_nat (length text) + 4 - 1) / 4)%Z
      ∧ ∀ (i : nat) (c : str),
          chunks !! i = Some c →
          (0 < Z.of_nat (length c) ≤ 4)%Z
          ∧ (S i < length chunks → Z.of_nat (length c) = 4%Z).
Proof.
  intros self text.
  assert (Hsize : (0 < Chunker.chunk_size self)%Z) by (simpl; lia).
  split; [reflexivity|]. split; [exact Hsize|].
  exact (fixed_chunks_have_the_chunk_size (after_full_stops []) self text eq_refl Hsize).
Defined.

(** The fixed strategy with chunk size 0 raises [ValueError] on every
    text, and with a negative chunk size it returns no chunk at all,
    whatever the text. *)
Theorem fixed_chunks_with_no_positive_size (tok : str → list str)
    (self : Chunker.t) (text : str) :
  Chunker.strategy self = "fixed" →
  (Chunker.chunk_size self ≤ 0)%Z →
  Chunker.chunk tok self text =
  if bool_decide (Chunker.chunk_size self = 0)%Z
  then Chunker.ValueError "range() arg 3 must not be zero"
  else Chunker.Chunks [].
Proof.
  intros Hst Hsize. unfold Chunker.chunk, range_from_zero.
  rewrite bool_decide_eq_true_2 by done.
  case_bool_decide; [done|].
  rewrite bool_decide_eq_false_2 by lia.
  replace (Z.to_nat _) with 0; [done|].
  symmetry. apply Z2Nat.nonpos.
  assert ((- Z.of_nat (length text) + - Chunker.chunk_size self - 1)
          / - Chunker.chunk_size self < 1)%Z
    by (apply Z.div_lt_upper_bound; lia).
  lia.
Qed.

Lemma fixed_chunks_with_no_positive_size_witness :
  let text := String.list_ascii_of_string "abcdefghij" in
  Chunker.chunk (after_full_stops []) (Chunker.__init__ "fixed" 0) text
  = Chunker.ValueError "range() arg 3 must not be zero"
  ∧ Chunker.chunk (after_full_stops []) (Chunker.__init__ "fixed" (-3)) text
    = Chunker.Chunks [].
Proof.
  intros text. split.
  - apply (fixed_chunks_with_no_positive_size (after_full_stops [])
             (Chunker.__init__ "fixed" 0) text eq_refl). simpl. lia.
  - apply (fixed_chunks_with_no_positive_size (after_full_stops [])
             (Chunker.__init__ "fixed" (-3)) text eq_refl). simpl. lia.
Defined.

(** ** Splitting and joining *)
Section Split.
Implicit Types (a b : ascii) (cur s text : str) (pieces : list str).

Lemma split2_not_nil a b cur s : split2 a b cur s ≠ [].
Proof.
  assert (H : ∀ s, (∀ cur, split2 a b cur s ≠ [])
                   ∧ (∀ cur, split2 a b cur (tail s) ≠ [])).
  { clear. intros s. induction s as [|c s' [IH1 IH2]]; [by split|].
    split; [|exact IH1]. intros cur. simpl.
    destruct s' as [|c' s'']; [done|]. case_bool_decide; [done|]. apply IH1. }
  apply H.
Qed.

Lemma join_cons (sep p : str) pieces :
  pieces ≠ [] → join sep (p :: pieces) = p ++ sep ++ join sep pieces.
Proof. by destruct pieces. Qed.

(** Joining the pieces of a split with the separator gives the text back. *)
Lemma join_split2 a b cur s : join [a; b] (split2 a b cur s) = cur ++ s.
Proof.
  assert (H : ∀ s, (∀ cur, join [a; b] (split2 a b cur s) = cur ++ s)
                   ∧ (∀ cur, join [a; b] (split2 a b cur (tail s)) = cur ++ tail s)).
  { clear. intros s. induction s as [|c s' [IH1 IH2]];
      [split; intros cur; simpl; by rewrite app_nil_r|].
    split; [|exact IH1]. intros cur. simpl.
    destruct s' as [|c' s'']; [done|]. case_bool_decide as Hsep.
    - destruct Hsep as [-> ->].
      rewrite join_cons by apply split2_not_nil.
      simpl in IH2. by rewrite IH2.
    - rewrite IH1. by rewrite <- app_assoc. }
  apply H.
Qed.

Lemma concat_with_separator (sep : str) pieces :
  pieces ≠ [] → concat (map (λ p, p ++ sep) pieces) = join sep pieces ++ sep.
Proof.
  induction pieces as [|p pieces IH]; [done|]. intros _.
  destruct pieces as [|p' pieces]; [by simpl; rewrite app_nil_r|].
  rewrite join_cons by done. simpl map. simpl concat.
  simpl in IH. rewrite IH by done. by rewrite <- !app_assoc.
Qed.
End Split.

(** ** Chunker, the sentence strategy *)
Section Sentence.
Implicit Types (state : list str * str) (sentences chunks : list str)
  (current sent text : str) (size : Z).

Lemma sentence_run (tok : str → list str) (self : Chunker.t) text :
  Chunker.strategy self = "sentence" →
  Chunker.chunk tok self text =
  let '(chunks, current) :=
    fold_left (Chunker.sentence_step (Chunker.chunk_size self))
      (split2 "."%char " "%char [] text) ([], []) in
  Chunker.Chunks (if bool_decide (current ≠ []) then chunks ++ [current] else chunks).
Proof.
  intros Hst. unfold Chunker.chunk. rewrite Hst.
  rewrite bool_decide_eq_false_2 by done.
  by rewrite bool_decide_eq_true_2 by done.
Qed.

Lemma sentence_loop_concat size sentences chunks current :
  let '(chunks', current') :=
    fold_left (Chunker.sentence_step size) sentences (chunks, current) in
  concat chunks' ++ current'
  = concat chunks ++ current ++ concat (map (λ s, s ++ full_stop_space) sentences).
Proof.
  revert chunks current. induction sentences as [|sent rest IH];
    intros chunks current; simpl.
  - by rewrite app_nil_r.
  - case_bool_decide.
    + specialize (IH (chunks ++ [current]) (sent ++ full_stop_space)).
      destruct (fold_left _ rest _) as [chunks' current'].
      rewrite IH, concat_app. simpl. by rewrite app_nil_r, <- !app_assoc.
    + specialize (IH chunks (current ++ sent ++ full_stop_space)).
      destruct (fold_left _ rest _) as [chunks' current'].
      rewrite IH. by rewrite <- !app_assoc.
Qed.
End Sentence.

(** The sentence strategy changes the text only by ending it with ['. ']:
    for every text and every chunk size, the chunks put together are the
    text followed by ['. ']. *)
Theorem sentence_chunks_add_up_to_the_text (tok : str → list str)
    (self : Chunker.t) (text : str) :
  Chunker.strategy self = "sentence" →
  ∃ chunks : list str,
    Chunker.chunk tok self text = Chunker.Chunks chunks
    ∧ concat chunks = text ++ full_stop_space.
Proof.
  intros Hst. rewrite (sentence_run _ _ _ Hst).
  pose proof (sentence_loop_concat (Chunker.chunk_size self)
                (split2 "."%char " "%char [] text) [] []) as Hloop.
  destruct (fold_left _ _ _) as [chunks current].
  eexists. split; [reflexivity|].
  assert (Hloop' : concat chunks ++ current = text ++ full_stop_space).
  { rewrite Hloop. simpl.
    rewrite concat_with_separator by apply split2_not_nil.
    unfold full_stop_space. by rewrite (join_split2 "."%char " "%char [] text). }
  case_bool_decide as Hcur.
  - rewrite concat_app. simpl. by rewrite app_nil_r.
  - subst current. by rewrite app_nil_r in Hloop'.
Qed.

Lemma sentence_chunks_add_up_to_the_text_witness :
  let self := Chunker.__init__ "sentence" 12 in
  let text := String.list_ascii_of_string "One two. Three. Four five six seven. End" in
  Chunker.strategy self = "sentence"
  ∧ ∃ chunks : list str,
      Chunker.chunk (after_full_stops []) self text = Chunker.Chunks chunks
      ∧ concat chunks = text ++ full_stop_space.
Proof.
  intros self text. split; [reflexivity|].
  exact (sentence_chunks_add_up_to_the_text (after_full_stops []) self text eq_refl).
Defined.

Section SentenceShape.
Implicit Types (sentences rest pre body chunks : list str)
  (current sent text : str) (size : Z).

Lemma sentence_loop_shape size sentences rest pre body current :
  rest ⊆ sentences →
  Forall (sentence_chunk size sentences) body →
  sentence_chunk size sentences current →
  let '(chunks', current') :=
    fold_left (Chunker.sentence_step size) rest (pre ++ body, current) in
  ∃ body' : list str,
    chunks' = pre ++ body'
    ∧ Forall (sentence_chunk size sentences) body'
    ∧ sentence_chunk size sentences current'.
Proof.
  revert body current. induction rest as [|sent rest IH];
    intros body current Hsub Hbody Hcur; simpl.
  - by exists body.
  - assert (Hrest : rest ⊆ sentences) by set_solver.
    assert (Hsent : sent ∈ sentences) by set_solver.
    case_bool_decide as Hlong.
    + rewrite <- app_assoc. apply IH; [done| |].
      * apply Forall_app. split; [done|by constructor].
      * split; [by eexists|]. right. by exists sent.
    + apply IH; [done..|]. split.
      * exists (current ++ sent). by rewrite <- app_assoc.
      * left. rewrite !length_app. unfold full_stop_space. simpl. lia.
Qed.

(** The whole answer of the sentence strategy. *)
Lemma sentence_shape (tok : str → list str) (self : Chunker.t) text
    (first : str) (others : list str) :
  Chunker.strategy self = "sentence" →
  split2 "."%char " "%char [] text = first :: others →
  ∃ body : list str,
    Chunker.chunk tok self text =
    Chunker.Chunks
      ((if bool_decide (Chunker.chunk_size self < Z.of_nat (length first))%Z
        then [[]] else []) ++ body)
    ∧ body ≠ []
    ∧ Forall (sentence_chunk (Chunker.chunk_size self) (first :: others)) body.
Proof.
  intros Hst Hsplit. rewrite (sentence_run _ _ _ Hst), Hsplit.
  set (size := Chunker.chunk_size self).
  set (pre := if bool_decide (size < Z.of_nat (length first))%Z
              then [[]] else [] : list str).
  assert (Hfirst : fold_left (Chunker.sentence_step size) (first :: others) ([], [])
                   = fold_left (Chunker.sentence_step size) others
                       (pre ++ [], first ++ full_stop_space)).
  { simpl. subst pre. repeat case_bool_decide; simpl in *; try done; lia. }
  rewrite Hfirst.
  pose proof (sentence_loop_shape size (first :: others) others pre []
                (first ++ full_stop_space)) as Hloop.
  destruct (fold_left _ others _) as [chunks current].
  destruct Hloop as (body & -> & Hbody & Hcur).
  - set_solver.
  - constructor.
  - split; [by eexists|]. right. exists first. split; [set_solver|done].
  - assert (Hne : current ≠ []).
    { destruct Hcur as [[p ->] _]. unfold full_stop_space. by destruct p. }
    rewrite bool_decide_eq_true_2 by done.
    exists (body ++ [current]). split; [by rewrite app_assoc|]. split.
    + by destruct body.
    + apply Forall_app. split; [done|by constructor].
Qed.
End SentenceShape.

(** The sentence strategy never returns an empty list, and its chunks end
    with ['. '], with one exception: when the first sentence is longer
    than the chunk size, the answer starts with an empty chunk. *)
Theorem sentence_chunks_start_with_an_empty_chunk (tok : str → list str)
    (self : Chunker.t) (text first : str) (others : list str) :
  Chunker.strategy self = "sentence" →
  split2 "."%char " "%char [] text = first :: others →
  ∃ body : list str,
    Chunker.chunk tok self text =
    Chunker.Chunks
      ((if bool_decide (Chunker.chunk_size self < Z.of_nat (length first))%Z
        then [[]] else []) ++ body)
    ∧ body ≠ []
    ∧ Forall (λ c, ∃ p : str, c = p ++ full_stop_space) body.
Proof.
  intros Hst Hsplit.
  destruct (sentence_shape tok self text first others Hst Hsplit)
    as (body & Hrun & Hne & Hbody).
  exists body. split; [done|]. split; [done|].
  eapply Forall_impl; [exact Hbody|]. by intros c [Hc _].
Qed.

Lemma sentence_chunks_start_with_an_empty_chunk_witness :
  let self := Chunker.__init__ "sentence" 3 in
  let text := String.list_ascii_of_string "One two. Three" in
  let first := String.list_ascii_of_string "One two" in
  let others := [String.list_ascii_of_string "Three"] in
  Chunker.strategy self = "sentence"
  ∧ split2 "."%char " "%char [] text = first :: others
  ∧ ∃ body : list str,
      Chunker.chunk (after_full_stops []) self text = Chunker.Chunks ([[]] ++ body)
      ∧ body ≠ []
      ∧ Forall (λ c, ∃ p : str, c = p ++ full_stop_space) body.
Proof.
  intros self text first others.
  split; [reflexivity|]. split; [reflexivity|].
  exact (sentence_chunks_start_with_an_empty_chunk (after_full_stops []) self text
           first others eq_refl eq_refl).
Defined.

(** The chunk size does not bound the chunks of the sentence strategy:
    every chunk is empty, or one whole sentence followed by ['. ']
    (however long), or at most [chunk_size + 2] characters long. *)
Theorem sentence_chunks_are_bounded_or_one_sentence (tok : str → list str)
    (self : Chunker.t) (text : str) :
  Chunker.strategy self = "sentence" →
  ∃ chunks : list str,
    Chunker.chunk tok self text = Chunker.Chunks chunks
    ∧ Forall (λ c, c = []
                   ∨ (Z.of_nat (length c) ≤ Chunker.chunk_size self + 2)%Z
                   ∨ ∃ sent : str,
                       sent ∈ split2 "."%char " "%char [] text
                       ∧ c = sent ++ full_stop_space) chunks.
Proof.
  intros Hst.
  destruct (split2 "."%char " "%char [] text) as [|first others] eqn:Hsplit;
    [by apply split2_not_nil in Hsplit|].
  destruct (sentence_shape tok self text first others Hst Hsplit)
    as (body & Hrun & _ & Hbody).
  eexists. split; [exact Hrun|]. apply Forall_app. split.
  - case_bool_decide; [|constructor]. constructor; [by left|constructor].
  - eapply Forall_impl; [exact Hbody|]. intros c [_ [Hc|Hc]]; auto.
Qed.

Lemma sentence_chunks_are_bounded_or_one_sentence_witness :
  let self := Chunker.__init__ "sentence" 12 in
  let text := String.list_ascii_of_string "One two. Three. Four five six seven. End" in
  Chunker.strategy self = "sentence"
  ∧ ∃ chunks : list str,
      Chunker.chunk (after_full_stops []) self text = Chunker.Chunks chunks
      ∧ Forall (λ c, c = []
                     ∨ (Z.of_nat (length c) ≤ Chunker.chunk_size self + 2)%Z
                     ∨ ∃ sent : str,
                         sent ∈ split2 "."%char " "%char [] text
                         ∧ c = sent ++ full_stop_space) chunks.
Proof.
  intros self text. split; [reflexivity|].
  exact (sentence_chunks_are_bounded_or_one_sentence (after_full_stops []) self text
           eq_refl).
Defined.

(** ** Stripping *)
Section Strip.
Implicit Types (s t : str) (c : ascii).

Lemma lstrip_suffix s : ∃ pre : str, s = pre ++ lstrip s.
Proof.
  induction s as [|c s [pre IH]]; simpl; [by exists []|].
  destruct (is_space c); [|by exists []].
  exists (c :: pre). simpl. by rewrite <- IH.
Qed.

Lemma lstrip_head s c t : lstrip s = c :: t → is_space c = false.
Proof.
  induction s as [|c' s IH]; simpl; [done|].
  destruct (is_space c') eqn:Hc'; [done|]. by intros [= <- <-].
Qed.

Lemma lstrip_id s : (∀ c t, s = c :: t → is_space c = false) → lstrip s = s.
Proof.
  destruct s as [|c t]; [done|]. intros Hs. simpl. by rewrite (Hs c t).
Qed.

Lemma strip_strip s : strip (strip s) = strip s.
Proof.
  unfold strip.
  set (t := lstrip s). set (u := lstrip (rev t)).
  assert (Hu : lstrip u = u).
  { apply lstrip_id. intros c r Hc. by eapply lstrip_head. }
  assert (Hrev : lstrip (rev u) = rev u).
  { apply lstrip_id. intros c r Hc.
    destruct (lstrip_suffix (rev t)) as [pre Hpre]. fold u in Hpre.
    apply (f_equal (@rev ascii)) in Hpre.
    rewrite rev_involutive, rev_app_distr, Hc in Hpre. simpl in Hpre.
    by eapply (lstrip_head s). }
  by rewrite Hrev, rev_involutive, Hu.
Qed.
End Strip.

(** ** Chunker, the recursive strategy *)
Section Recursive.
Variable tok : str → list str.
Implicit Types (chunks : list str) (current sent text para : str) (size : Z).

Lemma split_loop_clean size (sentences chunks : list str) current :
  Forall (λ c, c ≠ [] ∧ strip c = c) chunks →
  Forall (λ c, c ≠ [] ∧ strip c = c)
    (fst (fold_left (Chunker.split_step size) sentences (chunks, current))).
Proof.
  revert chunks current. induction sentences as [|sent rest IH];
    intros chunks current Hchunks; simpl; [done|].
  case_bool_decide; [|by apply IH].
  apply IH. case_bool_decide; [|done].
  apply Forall_app. split; [done|]. constructor; [|done].
  split; [done|apply strip_strip].
Qed.

Lemma sentence_split_clean text size :
  Forall (λ c, c ≠ [] ∧ strip c = c) (Chunker._sentence_split tok text size).
Proof.
  unfold Chunker._sentence_split.
  assert (Hnil : Forall (λ c : str, c ≠ [] ∧ strip c = c) []) by constructor.
  pose proof (split_loop_clean size (tok text) [] [] Hnil) as Hloop.
  destruct (fold_left _ _ _) as [chunks current]. simpl in Hloop.
  case_bool_decide; [|done].
  apply Forall_app. split; [done|]. constructor; [|done].
  split; [done|apply strip_strip].
Qed.

Lemma recursive_run (self : Chunker.t) text :
  Chunker.strategy self = "recursive" →
  Chunker.chunk tok self text =
  Chunker.Chunks
    (concat (map (λ para,
       if bool_decide (Z.of_nat (length para) ≤ Chunker.chunk_size self)%Z
       then [para]
       else Chunker._sentence_split tok para (Chunker.chunk_size self))
       (split2 newline newline [] text))).
Proof.
  intros Hst. unfold Chunker.chunk. rewrite Hst.
  rewrite !bool_decide_eq_false_2 by done.
  by rewrite bool_decide_eq_true_2 by done.
Qed.
End Recursive.

(** [_sentence_split] never returns an empty chunk, nor one with white
    space at either end, whatever the tokenizer gives it. *)
Theorem sentence_split_chunks_are_stripped (tok : str → list str) (text : str)
    (size : Z) :
  Forall (λ c, c ≠ [] ∧ strip c = c) (Chunker._sentence_split tok text size).
Proof. apply sentence_split_clean. Qed.

(** When no paragraph is longer than the chunk size, the recursive
    strategy returns the paragraphs themselves (empty ones included), and
    joining them with a blank line gives the text back. *)
Theorem recursive_chunks_of_short_paragraphs (tok : str → list str)
    (self : Chunker.t) (text : str) :
  Chunker.strategy self = "recursive" →
  Forall (λ para, (Z.of_nat (length para) ≤ Chunker.chunk_size self)%Z)
    (split2 newline newline [] text) →
  Chunker.chunk tok self text = Chunker.Chunks (split2 newline newline [] text)
  ∧ join [newline; newline] (split2 newline newline [] text) = text.
Proof.
  intros Hst Hshort. split; [|apply (join_split2 newline newline [] text)].
  rewrite (recursive_run _ _ _ Hst). f_equal.
  induction Hshort as [|para paras Hpara _ IH]; [done|].
  simpl. rewrite bool_decide_eq_true_2 by done. simpl. by rewrite IH.
Qed.

Lemma recursive_chunks_of_short_paragraphs_witness :
  let self := Chunker.__init__ "recursive" 8 in
  let text := [newline; newline; "a"; "b"; newline; newline; "c"; newline; newline]%char in
  Chunker.strategy self = "recursive"
  ∧ Chunker.chunk (after_full_stops []) self text
    = Chunker.Chunks [[]; ["a"; "b"]; ["c"]; []]%char
  ∧ join [newline; newline] [[]; ["a"; "b"]; ["c"]; []]%char = text.
Proof.
  intros self text. split; [reflexivity|].
  apply (recursive_chunks_of_short_paragraphs (after_full_stops []) self text eq_refl).
  repeat constructor; simpl; lia.
Defined.

(** Every chunk of the recursive strategy is a whole paragraph no longer
    than the chunk size, or a non-empty stripped piece of a longer
    paragraph. *)
Theorem recursive_chunks_are_paragraphs_or_stripped (tok : str → list str)
    (self : Chunker.t) (text : str) :
  Chunker.strategy self = "recursive" →
  ∃ chunks : list str,
    Chunker.chunk tok self text = Chunker.Chunks chunks
    ∧ Forall (λ c, (c ∈ split2 newline newline [] text
                    ∧ (Z.of_nat (length c) ≤ Chunker.chunk_size self)%Z)
                   ∨ (c ≠ [] ∧ strip c = c)) chunks.
Proof.
  intros Hst. rewrite (recursive_run _ _ _ Hst). eexists. split; [reflexivity|].
  apply Forall_concat, Forall_fmap, Forall_forall. intros para Hpara. simpl.
  case_bool_decide.
  - constructor; [by left|constructor].
  - eapply Forall_impl; [apply sentence_split_clean|].
    simpl. by right.
Qed.

Lemma recursive_chunks_are_paragraphs_or_stripped_witness :
  let self := Chunker.__init__ "recursive" 8 in
  let text := String.list_ascii_of_string "One.  Two three. Four five." in
  Chunker.strategy self = "recursive"
  ∧ ∃ chunks : list str,
      Chunker.chunk (after_full_stops []) self text = Chunker.Chunks chunks
      ∧ Forall (λ c, (c ∈ split2 newline newline [] text
                      ∧ (Z.of_nat (length c) ≤ Chunker.chunk_size self)%Z)
                     ∨ (c ≠ [] ∧ strip c = c)) chunks.
Proof.
  intros self text. split; [reflexivity|].
  exact (recursive_chunks_are_paragraphs_or_stripped (after_full_stops []) self text
           eq_refl).
Defined.

(** ** What a retrieval that returns has done *)
Section Returns.
Context {F : Type} `{!FloatOps F} {DB : Type} `{!VectorDB F DB}.
Implicit Types (h : pyheap F) (cs rs : list ref).

Lemma getitems_returned cs (idx : list nat) h rs h' :
  mapM (λ i : nat, lift (list_getitem cs (Z.of_nat i)) : py F ref) idx h
  = (Return rs, h') →
  h' = h ∧ Forall2 (λ r i, cs !! i = Some r) rs idx.
Proof.
  revert rs. induction idx as [|i idx IH]; intros rs; simpl.
  - intros [= <- <-]. by split.
  - rewrite bind_run. unfold lift at 1.
    destruct (list_getitem cs (Z.of_nat i)) as [r|e] eqn:Hr; [|done].
    rewrite bind_run.
    destruct (mapM (λ i : nat, lift (list_getitem cs (Z.of_nat i)) : py F ref) idx h)
      as [[rs'|e] h''] eqn:Hrest; [|done].
    intros [= <- <-]. destruct (IH rs' eq_refl) as [-> Hrs']. split; [done|].
    constructor; [|done].
    unfold list_getitem in Hr. cbv zeta in Hr.
    rewrite (bool_decide_eq_false_2 (Z.of_nat i < 0)%Z) in Hr by lia.
    case_bool_decide; [|done]. rewrite Nat2Z.id in Hr.
    destruct (cs !! i); [|done]. by injection Hr as ->.
Qed.

Lemma slice_to_subseteq {A : Type} (l : list A) (k : Z) : slice_to l k ⊆ l.
Proof. unfold slice_to. case_bool_decide; apply subseteq_take. Qed.

Lemma length_slice_to {A : Type} (l : list A) (k : Z) :
  (0 ≤ k)%Z → length (slice_to l k) ≤ Z.to_nat k.
Proof.
  intros Hk. unfold slice_to. rewrite bool_decide_eq_true_2 by done.
  rewrite length_take. lia.
Qed.

Lemma retrieve_returns (self : Retriever.t F DB) (query : string)
    (top_k_initial top_k_final : Z) (filters : option pydict) h rs h' :
  Retriever.retrieve self query top_k_initial top_k_final filters h = (Return rs, h') →
  ∃ (query_vec : list F) (candidates : list ref),
    list_getitem (Retriever.embed (Retriever.embedder self) [query]) 0 = Return query_vec
    ∧ vdb_search (Retriever.db self) query_vec top_k_initial filters h
      = (Return candidates, h')
    ∧ rs ⊆ filter (λ c, is_Some (dict_at h' c !! "text")) candidates
    ∧ ((0 ≤ top_k_final)%Z → length rs ≤ Z.to_nat top_k_final).
Proof.
  unfold Retriever.retrieve. rewrite bind_run. unfold lift at 1.
  destruct (list_getitem _ 0) as [query_vec|e] eqn:Hvec; [|done].
  rewrite bind_run.
  destruct (vdb_search _ _ _ _ _) as [[candidates|e] h1] eqn:Hsearch; [|done].
  rewrite bind_run. unfold Retriever.keep_valid at 1.
  set (valid := filter (λ c, is_Some (dict_at h1 c !! "text")) candidates).
  assert (Htext : Forall (λ c, is_Some (dict_at h1 c !! "text")) valid).
  { apply Forall_forall. intros c Hc. apply list_elem_of_filter in Hc. tauto. }
  intros Hrun.
  assert (Haux : h' = h1 ∧ rs ⊆ valid
                 ∧ ((0 ≤ top_k_final)%Z → length rs ≤ Z.to_nat top_k_final)).
  { assert (Hplain : (Return (slice_to valid top_k_final), h1) = (Return rs, h') →
              h' = h1 ∧ rs ⊆ valid
              ∧ ((0 ≤ top_k_final)%Z → length rs ≤ Z.to_nat top_k_final)).
    { intros [= <- <-]. split; [done|]. split; [apply slice_to_subseteq|].
      apply length_slice_to. }
    destruct (Retriever.reranker self) as [model|]; [|by apply Hplain].
    destruct valid as [|c valid'] eqn:Ev; [by apply Hplain|]. rewrite <- Ev in *.
    clear Hplain. rewrite bind_run, (pairs_run query valid h1 Htext) in Hrun.
    apply getitems_returned in Hrun as [-> Hrs].
    split; [done|]. split.
    - intros r Hr. apply list_elem_of_lookup in Hr as [j Hj].
      destruct (Forall2_lookup_l _ _ _ _ _ Hrs Hj) as (i & _ & Hi).
      by eapply list_elem_of_lookup_2.
    - intros Hk. rewrite (Forall2_length _ _ _ Hrs). by apply length_slice_to. }
  destruct Haux as (-> & Hsub & Hlen).
  exists query_vec, candidates. by rewrite Hsearch.
Qed.
End Returns.

(** Whenever [retrieve] returns, with or without reranker, every
    candidate it returns has a [text] and there are at most [top_k_final]
    of them (for [top_k_final ≥ 0]). *)
Theorem retrieve_returns_few_candidates_with_text {F : Type} `{!FloatOps F}
    {DB : Type} `{!VectorDB F DB} (self : Retriever.t F DB) (query : string)
    (top_k_initial top_k_final : Z) (filters : option pydict)
    (h h' : pyheap F) (rs : list ref) :
  (0 ≤ top_k_final)%Z →
  Retriever.retrieve self query top_k_initial top_k_final filters h = (Return rs, h') →
  length rs ≤ Z.to_nat top_k_final
  ∧ Forall (λ c, is_Some (dict_at h' c !! "text")) rs.
Proof.
  intros Hk Hrun.
  destruct (retrieve_returns _ _ _ _ _ _ _ _ Hrun) as (qv & cands & _ & _ & Hsub & Hlen).
  split; [by apply Hlen|].
  apply Forall_forall. intros c Hc. apply Hsub, list_elem_of_filter in Hc. tauto.
Qed.

Lemma retrieve_returns_few_candidates_with_text_witness :
  (0 ≤ 2)%Z
  ∧ length [3; 2] ≤ Z.to_nat 2
  ∧ Forall (λ c, is_Some (dict_at
              (snd (Retriever.retrieve level_retriever "tell me about finance" 2 2
                      None two_heap_added)) c !! "text")) [3; 2].
Proof.
  assert (Hk : (0 ≤ 2)%Z) by lia.
  split; [exact Hk|].
  apply (retrieve_returns_few_candidates_with_text level_retriever
           "tell me about finance" 2 2 None two_heap_added _ [3; 2] Hk).
  vm_compute. reflexivity.
Defined.

(** [QdrantVectorDB.add] changes nothing in the heap, whether the client
    takes the points or raises (the caller's array is not normalized).  It
    builds one point per pair of [zip(vectors, metadata)], so of two
    batches of different lengths the surplus of the longer one is dropped
    without notice, and it hands them to [client.upsert]; it raises what
    the client raises and nothing else. *)
Theorem remote_add_pairs_up_the_batches {F : Type} `{!FloatOps F}
    (uuid4 : nat → string) (self : QdrantVectorDB.t F) (vectors : ref)
    (metadata : list ref) (h : pyheap F) :
  ∃ pts : list (QdrantVectorDB.point F),
    QdrantVectorDB.make_points uuid4 0 (zip (array_at h vectors) metadata) h
    = (Return pts, h)
    ∧ length pts = min (length (array_at h vectors)) (length metadata)
    ∧ map QdrantVectorDB.vector pts = take (length metadata) (array_at h vectors)
    ∧ QdrantVectorDB.add uuid4 self vectors metadata h
      = (match QdrantVectorDB.upsert (QdrantVectorDB.client self) pts with
         | Return c => Return {| QdrantVectorDB.client := c |}
         | Raise e => Raise e
         end, h).
Proof.
  destruct (remote_add_run uuid4 self vectors metadata h)
    as (pts & Hpts & Hrun & _ & Hvec).
  exists pts. split; [exact Hpts|]. split; [|split; [exact Hvec|exact Hrun]].
  apply (f_equal length) in Hvec. rewrite length_map, length_take in Hvec. lia.
Qed.

(** ** upload_document *)
Section Upload.
Context {F : Type} `{!FloatOps F}.
Implicit Types (h : pyheap F) (a : api.app F (FAISSVectorDB.t F))
  (chunks : list str) (source : str).

Lemma new_dicts_run {A : Type} (g : A → pydict) (l : list A) h :
  mapM (λ x, new_dict (g x) : py F ref) l h =
  (Return (seq (length (dicts h)) (length l)),
   {| arrays := arrays h; dicts := dicts h ++ map g l |}).
Proof.
  revert h. induction l as [|x l IH]; intros h; simpl.
  - rewrite app_nil_r. by destruct h.
  - rewrite bind_run. unfold new_dict at 1. rewrite bind_run, IH. simpl.
    rewrite length_app. simpl. rewrite Nat.add_1_r.
    by rewrite <- app_assoc.
Qed.

(** The metadata of a chunk as [upload_document] builds it. *)
Lemma ingest_run a chunks source h :
  api.ingest a chunks source h =
  let x := Retriever.embed (api.embedder a) (map String.string_of_list_ascii chunks) in
  (match faiss.add (FAISSVectorDB.index (api.vector_db a)) (faiss.normalize_L2 x) with
   | Return index' =>
       Return {| FAISSVectorDB.index := index';
                 FAISSVectorDB.metadata :=
                   FAISSVectorDB.metadata (api.vector_db a)
                   ++ seq (length (dicts h)) (length chunks) |}
   | Raise e => Raise e
   end,
   {| arrays := arrays h ++ [faiss.normalize_L2 x];
      dicts := dicts h
               ++ map (λ chunk, <["text" := py_str chunk]> {["source" := py_str source]})
                    chunks |}).
Proof.
  unfold api.ingest. rewrite bind_run. unfold new_array at 1.
  rewrite bind_run, new_dicts_run. simpl.
  rewrite (add_run _ _ _ _ (Retriever.embed (api.embedder a)
                              (map String.string_of_list_ascii chunks))).
  - simpl. f_equal. f_equal.
    replace (length (arrays h)) with (length (arrays h) + 0) by lia.
    by rewrite insert_app_r.
  - simpl. by apply list_lookup_middle.
Qed.
End Upload.

(** [upload_document] answers 400 exactly when the type of the file is
    not allowed.  Whatever else goes wrong (text that cannot be decoded or
    read, an empty or blank text, a chunker that raises or returns no
    chunk, a store that raises) is answered 500, and a successful answer
    reports at least one chunk. *)
Theorem upload_answers_400_only_for_the_file_type {F : Type} `{!FloatOps F}
    {DB : Type} `{!VectorDB F DB} (services : api.Services) (a : api.app F DB)
    (file : api.UploadFile) (source_name : option str) (h : pyheap F) :
  match fst (fst (api.upload_document services a file source_name h)) with
  | api.HTTPException status_code =>
      (status_code = 400%Z ∧ api.allowed_file services (api.filename file) = false)
      ∨ (status_code = 500%Z ∧ api.allowed_file services (api.filename file) = true)
  | api.Respond body =>
      api.allowed_file services (api.filename file) = true
      ∧ 0 < api.chunks_ingested body
  end.
Proof.
  unfold api.upload_document.
  destruct (api.allowed_file services (api.filename file)); simpl; [|by left].
  destruct (if endswith _ _ then _ else _) as [decoded|]; simpl; [|by right].
  destruct (if endswith _ _ then _ else _) as [text|]; simpl; [|by right].
  case_bool_decide; simpl; [by right|].
  destruct (Chunker.chunk _ _ _) as [[|chunk chunks]|msg]; simpl; [by right| |by right].
  destruct (api.ingest _ _ _ _) as [[db'|e] h']; simpl; [|by right].
  split; [done|lia].
Qed.
(** What [ingest] does to a flat store in good order. *)
Lemma ingest_good_order {F : Type} `{!FloatOps F}
    (a : api.app F (FAISSVectorDB.t F)) (chunks : list str) (source : str)
    (h : pyheap F) :
  consistent h (api.vector_db a) →
  (∀ texts : list string,
     length (Retriever.embed (api.embedder a) texts) = length texts) →
  let '(outcome, h') := api.ingest a chunks source h in
  consistent h' (api.vector_db a)
  ∧ (∀ (r : ref) (d : pydict), dicts h !! r = Some d → dicts h' !! r = Some d)
  ∧ match outcome with
    | Return db' =>
        consistent h' db'
        ∧ faiss.d (FAISSVectorDB.index db')
          = faiss.d (FAISSVectorDB.index (api.vector_db a))
        ∧ faiss.ntotal (FAISSVectorDB.index db')
          = faiss.ntotal (FAISSVectorDB.index (api.vector_db a)) + length chunks
        ∧ ∃ new_refs : list ref,
            FAISSVectorDB.metadata db'
            = FAISSVectorDB.metadata (api.vector_db a) ++ new_refs
            ∧ length new_refs = length chunks
            ∧ Forall (λ r, ∃ chunk : str,
                        dicts h' !! r
                        = Some (<["text" := py_str chunk]>
                                  {["source" := py_str source]})) new_refs
    | Raise _ => True
    end.
Proof.
  intros [Hcount Hlive] Hembed. rewrite ingest_run. cbv zeta.
  set (x := Retriever.embed _ _).
  assert (Hx : length x = length chunks) by (subst x; by rewrite Hembed, length_map).
  set (g := λ chunk : str, <["text" := py_str chunk]> {["source" := py_str source]}).
  assert (Hold : ∀ (r : ref) (d : pydict),
            dicts h !! r = Some d → (dicts h ++ map g chunks) !! r = Some d)
    by (intros r d Hr; by apply lookup_app_l_Some).
  assert (Hlive' : live {| arrays := arrays h ++ [faiss.normalize_L2 x];
                           dicts := dicts h ++ map g chunks |}
                     (FAISSVectorDB.metadata (api.vector_db a))).
  { eapply Forall_impl; [exact Hlive|]. intros r Hr. simpl in *.
    rewrite length_app. lia. }
  split; [by split|]. split; [exact Hold|].
  unfold faiss.add. destruct (forallb _ _); simpl; [|done].
  split; [split|split; [done|split]].
  - unfold faiss.ntotal, faiss.normalize_L2 in *. simpl.
    rewrite !length_app, length_seq, length_map. lia.
  - apply Forall_app. split; [exact Hlive'|].
    apply Forall_forall. intros r Hr. simpl.
    apply list_elem_of_lookup in Hr as [j Hj]. apply lookup_seq in Hj as [-> Hj].
    rewrite length_app, length_map. lia.
  - unfold faiss.ntotal, faiss.normalize_L2. simpl.
    rewrite length_app, length_map. lia.
  - exists (seq (length (dicts h)) (length chunks)).
    split; [done|]. split; [by rewrite length_seq|].
    apply Forall_forall. intros r Hr.
    apply list_elem_of_lookup in Hr as [j Hj]. apply lookup_seq in Hj as [-> Hj].
    destruct (lookup_lt_is_Some_2 chunks j Hj) as [chunk Hchunk].
    exists chunk. rewrite lookup_app_r by lia.
    replace (length (dicts h) + j - length (dicts h)) with j by lia.
    by rewrite list_lookup_fmap, Hchunk.
Qed.



(** ** ask_question *)
Section Ask.
Context {F : Type} `{!FloatOps F} {DB : Type} `{!VectorDB F DB}.
Variable services : api.Services.
Implicit Types (h : pyheap F) (a : api.app F DB) (found : list ref).

Lemma views_run found h :
  Forall (λ c, is_Some (dict_at h c !! "text")) found →
  mapM api.context_view found h = (Return (map (shown h) found), h).
Proof.
  induction found as [|c found IH]; intros Hcs; simpl; [done|].
  apply Forall_cons in Hcs as [[v Hv] Hcs].
  rewrite bind_run. unfold api.context_view at 1.
  rewrite bind_run. unfold read_dict at 1.
  rewrite bind_run. unfold lift, dict_getitem, shown, dict_get. rewrite Hv. simpl.
  rewrite bind_run, (IH Hcs). done.
Qed.

Lemma ask_run a (query : string) (filter_source : option string) h found h' :
  Retriever.retrieve (api.retriever a) query 10 3 (filters_of filter_source) h
  = (Return found, h') →
  api.ask_question services a query filter_source h
  = (api.Respond
       match found with
       | [] => {| api.answer := "No relevant information found.";
                  api.contexts := [] |}
       | _ :: _ => {| api.answer :=
                        api.generate services query (map (dict_at h') found);
                      api.contexts := map (shown h') found |}
       end, h').
Proof.
  intros Hrun. unfold api.ask_question. cbv zeta.
  change (match filter_source with
          | Some (String c s) => Some {["source" := PyStr (String c s)]}
          | _ => None
          end) with (filters_of filter_source).
  rewrite Hrun. destruct found as [|c found]; [done|].
  destruct (retrieve_returns _ _ _ _ _ _ _ _ Hrun) as (qv & cands & _ & _ & Hsub & _).
  rewrite views_run; [done|].
  apply Forall_forall. intros r Hr. apply Hsub, list_elem_of_filter in Hr. tauto.
Qed.

Lemma ask_raises a (query : string) (filter_source : option string) h (e : exn) :
  fst (Retriever.retrieve (api.retriever a) query 10 3 (filters_of filter_source) h)
  = Raise e →
  fst (api.ask_question services a query filter_source h) = api.HTTPException 500.
Proof.
  intros Hrun. unfold api.ask_question. cbv zeta.
  change (match filter_source with
          | Some (String c s) => Some {["source" := PyStr (String c s)]}
          | _ => None
          end) with (filters_of filter_source).
  destruct (Retriever.retrieve _ _ _ _ _ _) as [[found|e'] h']; [done|done].
Qed.
End Ask.

(** ** ask_question over the flat store *)
Section AskFlat.
Context {F : Type} `{!FloatOps F}.
Implicit Types (h : pyheap F) (self : FAISSVectorDB.t F).

Lemma candidate_of_has_text (d : pydict) : is_Some (candidate_of d !! "text").
Proof.
  destruct (d !! "text") as [v|] eqn:Hv.
  - exists v. by apply candidate_of_keeps.
  - exists (PyStr ""). unfold candidate_of, dict_with_default. rewrite Hv.
    destruct (<["text":=PyStr ""]> d !! "source").
    + by rewrite lookup_insert_eq.
    + rewrite lookup_insert_ne by done. by rewrite lookup_insert_eq.
Qed.

Lemma filter_all {A : Type} (P : A → Prop) `{!∀ x, Decision (P x)} (l : list A) :
  Forall P l → filter P l = l.
Proof.
  induction 1 as [|x l Hx _ IH]; [done|].
  rewrite filter_cons_True by done. by rewrite IH.
Qed.

(** A search on a store without entries raises, whatever the query. *)
Lemma empty_search_raises self (q : list F) (k : Z) (filters : option pydict) h :
  faiss.xb (FAISSVectorDB.index self) = [] →
  FAISSVectorDB.metadata self = [] →
  ∃ e : exn, fst (FAISSVectorDB.search self q k filters h) = Raise e.
Proof.
  intros Hxb Hmd. rewrite search_run.
  destruct (faiss.search _ _ _) as [labels|e] eqn:Hs; [|by exists e].
  unfold faiss.search in Hs. destruct (negb _); [done|].
  case_bool_decide as Hk; [done|]. injection Hs as <-.
  unfold faiss.ranked, faiss.ntotal. rewrite Hxb. simpl.
  destruct (Z.to_nat k) as [|n] eqn:Hn; [lia|]. simpl.
  exists IndexError.
  pose proof (collect_raises (FAISSVectorDB.metadata self)
                ((-1)%Z :: replicate n (-1)%Z) IndexError h) as Hraise.
  rewrite Hmd in Hraise |- *. specialize (Hraise eq_refl).
  destruct (FAISSVectorDB.collect _ _ _) as [[rs|e] h']; simpl in *; congruence.
Qed.

(** A search without filter on a store in good order that holds at least
    one entry. *)
Lemma search_fills_top_k `{!FloatLaws F} self (q : list F) (k : Z) h :
  consistent h self →
  FAISSVectorDB.metadata self ≠ [] →
  length q = faiss.d (FAISSVectorDB.index self) →
  (1 ≤ k)%Z →
  ∃ (rs : list ref) (h' : pyheap F),
    FAISSVectorDB.search self q k None h = (Return rs, h')
    ∧ length rs = Z.to_nat k
    ∧ Forall (λ c, ∃ m : ref, m ∈ FAISSVectorDB.metadata self
                              ∧ dict_at h' c = candidate_of (dict_at h m)) rs.
Proof.
  intros [Hn Hlive] Hmd Hq Hk.
  assert (Hrun : ∃ (rs : list ref) (h' : pyheap F),
            FAISSVectorDB.search self q k None h = (Return rs, h')
            ∧ length rs = Z.to_nat k).
  { rewrite search_run.
    destruct (faiss.search (FAISSVectorDB.index self) (fvec_renorm_L2 q) k)
      as [labels|e] eqn:Hs.
    - apply search_labels in Hs as [Hlen Hrange]. rewrite <- Hn in Hrange.
      destruct (picked_all _ _ Hmd Hrange) as (ms & Hms & Hlen').
      rewrite (collect_run _ _ _ _ Hlive Hms). eexists _, _. split; [reflexivity|].
      simpl. rewrite length_seq. congruence.
    - unfold faiss.search in Hs.
      rewrite fvec_renorm_L2_length, Hq, Nat.eqb_refl in Hs. simpl in Hs.
      rewrite bool_decide_eq_false_2 in Hs by lia. done. }
  destruct Hrun as (rs & h' & Hrun & Hlen). exists rs, h'.
  split; [done|]. split; [done|].
  by destruct (search_candidates self q k None h h' rs Hlive Hrun) as (_ & _ & ?).
Qed.

(** The retrieval on top of such a search: the candidates all have a
    text, so none is dropped, and the first [top_k_final] come back. *)
Lemma retrieve_stocked `{!FloatLaws F} (r : Retriever.t F (FAISSVectorDB.t F))
    (query : string) (top_k_initial top_k_final : Z) h (query_vec : list F) :
  consistent h (Retriever.db r) →
  FAISSVectorDB.metadata (Retriever.db r) ≠ [] →
  list_getitem (Retriever.embed (Retriever.embedder r) [query]) 0 = Return query_vec →
  length query_vec = faiss.d (FAISSVectorDB.index (Retriever.db r)) →
  (∀ (model : Retriever.CrossEncoder F) (pairs : list (string * pyval)),
     Retriever.reranker r = Some model →
     length (Retriever.predict model pairs) = length pairs) →
  (0 ≤ top_k_final ≤ top_k_initial)%Z →
  (1 ≤ top_k_initial ≤ 16)%Z →
  ∃ (rs : list ref) (h' : pyheap F),
    Retriever.retrieve r query top_k_initial top_k_final None h = (Return rs, h')
    ∧ length rs = Z.to_nat top_k_final
    ∧ Forall (λ c, ∃ m : ref, m ∈ FAISSVectorDB.metadata (Retriever.db r)
                              ∧ dict_at h' c = candidate_of (dict_at h m)) rs.
Proof.
  intros Hgood Hmd Hvec Hdim Hmodel Hkf Hk.
  destruct (search_fills_top_k (Retriever.db r) query_vec top_k_initial h
              Hgood Hmd Hdim (proj1 Hk)) as (cands & h1 & Hsearch & Hlen & Hcands).
  assert (Htext : Forall (λ c, is_Some (dict_at h1 c !! "text")) cands).
  { eapply Forall_impl; [exact Hcands|]. intros c (m & _ & ->).
    apply candidate_of_has_text. }
  unfold Retriever.retrieve. rewrite bind_run. unfold lift at 1. rewrite Hvec.
  rewrite bind_run.
  change (vdb_search (Retriever.db r) query_vec top_k_initial None h)
    with (FAISSVectorDB.search (Retriever.db r) query_vec top_k_initial None h).
  rewrite Hsearch. rewrite bind_run. unfold Retriever.keep_valid at 1.
  rewrite (filter_all _ _ Htext).
  assert (Hplain : ∃ (rs : list ref) (h' : pyheap F),
            (Return (slice_to cands top_k_final), h1) = (Return rs, h')
            ∧ length rs = Z.to_nat top_k_final
            ∧ Forall (λ c, ∃ m : ref, m ∈ FAISSVectorDB.metadata (Retriever.db r)
                                      ∧ dict_at h' c = candidate_of (dict_at h m)) rs).
  { eexists _, _. split; [reflexivity|]. split.
    - unfold slice_to. rewrite bool_decide_eq_true_2 by lia.
      rewrite length_take. lia.
    - apply Forall_forall. intros c Hc. apply slice_to_subseteq in Hc.
      by apply (proj1 (Forall_forall _ _) Hcands). }
  destruct (Retriever.reranker r) as [model|] eqn:Hr; [|exact Hplain].
  destruct cands as [|c cands'] eqn:Ec; [exact Hplain|]. rewrite <- Ec in *.
  clear Hplain. rewrite bind_run, (pairs_run query cands h1 Htext).
  set (scores := Retriever.predict model _).
  assert (Hscores : length scores = length cands).
  { subst scores. rewrite (Hmodel model _ eq_refl). by rewrite length_map. }
  rewrite (argsort_short scores) by lia.
  destruct (reversed_insertion_argsort scores) as (order & Hrev & Hperm & _).
  rewrite Hrev.
  assert (Hidx : Forall (λ i, i < length cands) (slice_to (map snd order) top_k_final)).
  { apply Forall_forall. intros i Hi. apply slice_to_subseteq in Hi.
    apply list_elem_of_fmap in Hi as ([s j] & -> & Hin). simpl.
    rewrite Hperm in Hin.
    apply list_elem_of_lookup in Hin as [n Hn].
    apply lookup_zip_with_Some in Hn as (x & y & [= <- <-] & _ & Hy).
    apply lookup_seq in Hy as [-> Hy]. lia. }
  destruct (getitems_run cands _ h1 Hidx) as (rs & Hrun & Hrs).
  exists rs, h1. split; [exact Hrun|]. split.
  - rewrite (Forall2_length _ _ _ Hrs). unfold slice_to.
    rewrite bool_decide_eq_true_2 by lia.
    rewrite length_take, length_map, (Permutation_length Hperm).
    rewrite length_zip_with, length_seq. lia.
  - apply Forall_forall. intros c0 Hc0.
    apply list_elem_of_lookup in Hc0 as [j Hj].
    destruct (Forall2_lookup_l _ _ _ _ _ Hrs Hj) as (i & _ & Hi).
    apply list_elem_of_lookup_2 in Hi.
    by apply (proj1 (Forall_forall _ _) Hcands).
Qed.
End AskFlat.

(** Whatever the store and the reranker, a question that is answered is
    answered with at most three contexts, and without any context the
    answer is the fixed sentence: the generator is not asked. *)
Theorem ask_answers_with_at_most_three_contexts {F : Type} `{!FloatOps F}
    {DB : Type} `{!VectorDB F DB} (services : api.Services) (a : api.app F DB)
    (query : string) (filter_source : option string) (h h' : pyheap F)
    (body : api.query_body) :
  api.ask_question services a query filter_source h = (api.Respond body, h') →
  length (api.contexts body) ≤ 3
  ∧ (api.contexts body = [] →
     api.answer body = "No relevant information found.").
Proof.
  intros Hask.
  destruct (Retriever.retrieve (api.retriever a) query 10 3
              (filters_of filter_source) h) as [[found|e] h1] eqn:Hrun.
  - destruct (retrieve_returns _ _ _ _ _ _ _ _ Hrun) as (_ & _ & _ & _ & _ & Hlen).
    rewrite (ask_run services a query filter_source h found h1 Hrun) in Hask.
    injection Hask as <- <-. destruct found as [|c found]; simpl.
    + split; [lia|done].
    + split; [|done]. rewrite length_map. apply Hlen. lia.
  - pose proof (ask_raises services a query filter_source h e) as Hraise.
    rewrite Hrun, Hask in Hraise. by specialize (Hraise eq_refl).
Qed.

Lemma ask_answers_with_at_most_three_contexts_witness :
  ∃ (body : api.query_body) (h' : pyheap Z),
    api.ask_question plain_services stocked_app "tell me about finance" None
      two_heap_added = (api.Respond body, h')
    ∧ length (api.contexts body) ≤ 3
    ∧ (api.contexts body = [] →
       api.answer body = "No relevant information found.").
Proof.
  eexists _, _. split; [vm_compute; reflexivity|].
  eapply (ask_answers_with_at_most_three_contexts plain_services stocked_app
            "tell me about finance" None two_heap_added).
  vm_compute. reflexivity.
Defined.

(** While the flat store holds nothing, every question is answered with
    status 500, whatever the embedder returns, with or without a source
    to filter by: the search raises, it does not come back empty. *)
Theorem ask_on_an_empty_store_answers_500 {F : Type} `{!FloatOps F}
    (services : api.Services) (a : api.app F (FAISSVectorDB.t F))
    (query : string) (filter_source : option string) (h : pyheap F) :
  faiss.xb (FAISSVectorDB.index (api.vector_db a)) = [] →
  FAISSVectorDB.metadata (api.vector_db a) = [] →
  fst (api.ask_question services a query filter_source h) = api.HTTPException 500.
Proof.
  intros Hxb Hmd.
  assert (Hraise : ∃ e : exn,
            fst (Retriever.retrieve (api.retriever a) query 10 3
                   (filters_of filter_source) h) = Raise e).
  { unfold Retriever.retrieve. rewrite bind_run. unfold lift at 1.
    destruct (list_getitem _ 0) as [query_vec|e]; [|by exists e].
    rewrite bind_run.
    change (vdb_search (Retriever.db (api.retriever a)) query_vec 10
              (filters_of filter_source) h)
      with (FAISSVectorDB.search (api.vector_db a) query_vec 10
              (filters_of filter_source) h).
    destruct (empty_search_raises (api.vector_db a) query_vec 10
                (filters_of filter_source) h Hxb Hmd) as [e He].
    exists e. destruct (FAISSVectorDB.search _ _ _ _ _) as [[rs|e'] h1];
      simpl in *; congruence. }
  destruct Hraise as [e He]. by apply (ask_raises services a query filter_source h e).
Qed.

Lemma ask_on_an_empty_store_answers_500_witness :
  faiss.xb (FAISSVectorDB.index (api.vector_db fresh_app)) = []
  ∧ FAISSVectorDB.metadata (api.vector_db fresh_app) = []
  ∧ fst (api.ask_question plain_services fresh_app "tell me about finance"
           (Some "notes.txt") empty_heap) = api.HTTPException 500.
Proof.
  split; [reflexivity|]. split; [reflexivity|].
  exact (ask_on_an_empty_store_answers_500 plain_services fresh_app
           "tell me about finance" (Some "notes.txt") empty_heap eq_refl eq_refl).
Defined.

(** Over the flat store, a question with a non-empty [filter_source] is
    answered only with contexts whose source is that string. *)
Theorem ask_with_a_source_answers_from_that_source {F : Type} `{!FloatOps F}
    (services : api.Services) (a : api.app F (FAISSVectorDB.t F))
    (query source : string) (h h' : pyheap F) (body : api.query_body) :
  source ≠ "" →
  api.ask_question services a query (Some source) h = (api.Respond body, h') →
  Forall (λ ctx, snd ctx = PyStr source) (api.contexts body).
Proof.
  intros Hsource Hask.
  destruct source as [|c s]; [done|].
  destruct (Retriever.retrieve (api.retriever a) query 10 3
              (filters_of (Some (String c s))) h) as [[found|e] h1] eqn:Hrun.
  - destruct (retrieve_returns _ _ _ _ _ _ _ _ Hrun)
      as (query_vec & cands & _ & Hsearch & Hsub & _).
    rewrite (ask_run services a query _ h found h1 Hrun) in Hask.
    injection Hask as <- <-.
    assert (Hfound : Forall (λ r, snd (shown h1 r) = PyStr (String c s)) found).
    { apply Forall_forall. intros r Hr.
      apply Hsub, list_elem_of_filter in Hr as [_ Hr].
      change (vdb_search (Retriever.db (api.retriever a)) query_vec 10
                (filters_of (Some (String c s))) h)
        with (FAISSVectorDB.search (api.vector_db a) query_vec 10
                (Some {["source" := PyStr (String c s)]}) h) in Hsearch.
      rewrite search_run in Hsearch.
      destruct (faiss.search _ _ _) as [labels|e]; [|done].
      destruct (FAISSVectorDB.collect _ _ _) as [[results|e] h2]; [|done].
      injection Hsearch as <- <-. unfold kept in Hr.
      assert (Htruthy : dict_truthy {["source" := PyStr (String c s)]} = true).
      { apply bool_decide_eq_true_2. intros Hempty.
        apply (f_equal (λ m : pydict, m !! "source")) in Hempty.
        by rewrite lookup_singleton_eq, lookup_empty in Hempty. }
      rewrite Htruthy in Hr.
      apply list_elem_of_filter in Hr as [Hr _].
      unfold dict_get in Hr. rewrite lookup_singleton_eq in Hr. simpl in Hr.
      unfold shown, dict_get. simpl.
      destruct (dict_at h2 r !! "source") as [v|]; simpl in *; [done|done]. }
    destruct found as [|r found]; simpl; [constructor|].
    apply Forall_cons in Hfound as [Hr Hfound].
    constructor; [exact Hr|]. by apply Forall_fmap.
  - pose proof (ask_raises services a query (Some (String c s)) h e) as Hraise.
    rewrite Hrun, Hask in Hraise. by specialize (Hraise eq_refl).
Qed.

Lemma ask_with_a_source_answers_from_that_source_witness :
  "b.txt" ≠ ""
  ∧ ∃ (body : api.query_body) (h' : pyheap Z),
      api.ask_question plain_services stocked_app "tell me about finance"
        (Some "b.txt") two_heap_added = (api.Respond body, h')
      ∧ api.contexts body ≠ []
      ∧ Forall (λ ctx, snd ctx = PyStr "b.txt") (api.contexts body).
Proof.
  assert (Hsource : "b.txt" ≠ "") by discriminate.
  split; [exact Hsource|].
  eexists _, _. split; [vm_compute; reflexivity|]. split; [discriminate|].
  eapply (ask_with_a_source_answers_from_that_source plain_services stocked_app
            "tell me about finance" "b.txt" two_heap_added _ _ Hsource).
  vm_compute. reflexivity.
Defined.

(** ** Questions over a flat store that holds something *)
Section AskStocked.
Context {F : Type} `{!FloatOps F} `{!FloatLaws F}.
Variable services : api.Services.
Implicit Types (h : pyheap F) (a : api.app F (FAISSVectorDB.t F)).

Lemma ask_stocked a (query : string) (filter_source : option string) h
    (query_vec : list F) :
  consistent h (api.vector_db a) →
  FAISSVectorDB.metadata (api.vector_db a) ≠ [] →
  list_getitem (Retriever.embed (api.embedder a) [query]) 0 = Return query_vec →
  length query_vec = faiss.d (FAISSVectorDB.index (api.vector_db a)) →
  (∀ (model : Retriever.CrossEncoder F) (pairs : list (string * pyval)),
     api.reranker a = Some model →
     length (Retriever.predict model pairs) = length pairs) →
  filter_source = None ∨ filter_source = Some "" →
  ∃ (body : api.query_body) (h' : pyheap F),
    api.ask_question services a query filter_source h = (api.Respond body, h')
    ∧ length (api.contexts body) = 3
    ∧ Forall (λ ctx, ∃ m : ref,
                m ∈ FAISSVectorDB.metadata (api.vector_db a)
                ∧ ctx = (dict_get (candidate_of (dict_at h m)) "text" PyNone,
                         dict_get (candidate_of (dict_at h m)) "source"
                           (PyStr "unknown")))
        (api.contexts body).
Proof.
  intros Hgood Hmd Hvec Hdim Hmodel Hfilter.
  assert (Hnone : filters_of filter_source = None) by (by destruct Hfilter as [-> | ->]).
  destruct (retrieve_stocked (api.retriever a) query 10 3 h query_vec
              Hgood Hmd Hvec Hdim Hmodel) as (rs & h' & Hrun & Hlen & Hrs);
    [lia|lia|].
  rewrite <- Hnone in Hrun.
  rewrite (ask_run services a query filter_source h rs h' Hrun).
  destruct rs as [|c rs]; [done|].
  eexists _, _. split; [reflexivity|]. simpl.
  split; [by rewrite length_map|].
  change (shown h' c :: map (shown h') rs) with (map (shown h') (c :: rs)).
  apply Forall_fmap. eapply Forall_impl; [exact Hrs|].
  intros r (m & Hm & Hr). exists m. split; [done|].
  unfold shown. by rewrite Hr.
Qed.
End AskStocked.

(** Over a flat store in good order that holds at least one entry, a
    question without source filter is answered, and always with exactly
    three contexts, each the text and source of a stored entry: a store
    with fewer than three entries repeats one. *)
Theorem ask_on_a_stocked_store_answers_with_three_contexts {F : Type}
    `{!FloatOps F} `{!FloatLaws F} (services : api.Services)
    (a : api.app F (FAISSVectorDB.t F)) (query : string)
    (filter_source : option string) (h : pyheap F) (query_vec : list F) :
  consistent h (api.vector_db a) →
  FAISSVectorDB.metadata (api.vector_db a) ≠ [] →
  list_getitem (Retriever.embed (api.embedder a) [query]) 0 = Return query_vec →
  length query_vec = faiss.d (FAISSVectorDB.index (api.vector_db a)) →
  (∀ (model : Retriever.CrossEncoder F) (pairs : list (string * pyval)),
     api.reranker a = Some model →
     length (Retriever.predict model pairs) = length pairs) →
  filter_source = None ∨ filter_source = Some "" →
  ∃ (body : api.query_body) (h' : pyheap F),
    api.ask_question services a query filter_source h = (api.Respond body, h')
    ∧ length (api.contexts body) = 3
    ∧ Forall (λ ctx, ∃ m : ref,
                m ∈ FAISSVectorDB.metadata (api.vector_db a)
                ∧ ctx = (dict_get (candidate_of (dict_at h m)) "text" PyNone,
                         dict_get (candidate_of (dict_at h m)) "source"
                           (PyStr "unknown")))
        (api.contexts body).
Proof. apply ask_stocked. Qed.

Lemma ask_on_a_stocked_store_answers_with_three_contexts_witness :
  consistent one_heap one_store
  ∧ FAISSVectorDB.metadata one_store ≠ []
  ∧ ∃ (body : api.query_body) (h' : pyheap Z),
      api.ask_question plain_services
        {| api.chunker := Chunker.__init__ "fixed" 5;
           api.embedder := fixed_embedder;
           api.reranker := None;
           api.vector_db := one_store |}
        "tell me about cats" None one_heap = (api.Respond body, h')
      ∧ length (api.contexts body) = 3
      ∧ Forall (λ ctx, ctx = (PyStr "cats are mammals", PyStr "a.txt"))
          (api.contexts body).
Proof.
  assert (Hgood : consistent one_heap one_store)
    by (split; [reflexivity|repeat constructor]).
  assert (Hmd : FAISSVectorDB.metadata one_store ≠ []) by discriminate.
  split; [exact Hgood|]. split; [exact Hmd|].
  destruct (ask_on_a_stocked_store_answers_with_three_contexts plain_services
              {| api.chunker := Chunker.__init__ "fixed" 5;
                 api.embedder := fixed_embedder;
                 api.reranker := None;
                 api.vector_db := one_store |}
              "tell me about cats" None one_heap [7; 0]%Z
              Hgood Hmd eq_refl eq_refl)
    as (body & h' & Hask & Hlen & Hctx); [discriminate|by left|].
  exists body, h'. split; [exact Hask|]. split; [exact Hlen|].
  eapply Forall_impl; [exact Hctx|].
  intros ctx (m & Hm & ->).
  apply list_elem_of_singleton in Hm as ->. vm_compute. reflexivity.
Defined.

(** After an upload that succeeds on a flat store in good order, a
    question without source filter is answered with exactly three
    contexts, however few chunks the store holds. *)
Theorem upload_then_ask_answers_with_three_contexts {F : Type} `{!FloatOps F}
    `{!FloatLaws F} (services : api.Services) (a a' : api.app F (FAISSVectorDB.t F))
    (file : api.UploadFile) (source_name : option str) (query : string)
    (h h' : pyheap F) (uploaded : api.upload_body) (query_vec : list F) :
  consistent h (api.vector_db a) →
  (∀ texts : list string,
     length (Retriever.embed (api.embedder a) texts) = length texts) →
  list_getitem (Retriever.embed (api.embedder a) [query]) 0 = Return query_vec →
  length query_vec = faiss.d (FAISSVectorDB.index (api.vector_db a)) →
  (∀ (model : Retriever.CrossEncoder F) (pairs : list (string * pyval)),
     api.reranker a = Some model →
     length (Retriever.predict model pairs) = length pairs) →
  api.upload_document services a file source_name h = (api.Respond uploaded, a', h') →
  ∃ (body : api.query_body) (h'' : pyheap F),
    api.ask_question services a' query None h' = (api.Respond body, h'')
    ∧ length (api.contexts body) = 3.
Proof.
  intros Hgood Hembed Hvec Hdim Hmodel Hup.
  unfold api.upload_document in Hup.
  destruct (negb _); [done|].
  destruct (if endswith _ _ then _ else _) as [decoded|]; [|done].
  destruct (if endswith _ _ then _ else _) as [text|]; [|done].
  case_bool_decide; [done|].
  destruct (Chunker.chunk _ _ _) as [[|chunk chunks]|msg]; [done| |done].
  cbv zeta in Hup.
  pose proof (ingest_good_order a (chunk :: chunks)
                (api.source_of source_name (api.filename file)) h Hgood Hembed) as Hin.
  destruct (api.ingest _ _ _ _) as [[db'|e] h1]; [|done].
  injection Hup as _ <- <-.
  destruct Hin as (_ & _ & Hgood' & Hd & _ & new_refs & Hmd & Hlen & _).
  set (a1 := {| api.chunker := api.chunker a; api.embedder := api.embedder a;
                api.reranker := api.reranker a; api.vector_db := db' |}).
  assert (Hmd' : FAISSVectorDB.metadata (api.vector_db a1) ≠ []).
  { simpl. rewrite Hmd. destruct new_refs as [|r new_refs]; [done|].
    intros Hnil. by apply app_eq_nil in Hnil as [_ ?]. }
  assert (Hdim' : length query_vec = faiss.d (FAISSVectorDB.index (api.vector_db a1)))
    by (simpl; congruence).
  destruct (ask_stocked services a1 query None h1 query_vec Hgood' Hmd' Hvec Hdim'
              Hmodel (or_introl eq_refl)) as (body & h'' & Hask & Hthree & _).
  by exists body, h''.
Qed.

Lemma upload_then_ask_answers_with_three_contexts_witness :
  consistent empty_heap (api.vector_db fresh_app)
  ∧ fst (fst (api.upload_document plain_services fresh_app notes_txt None empty_heap))
    = api.Respond {| api.upload_filename := api.filename notes_txt;
                     api.chunks_ingested := 3;
                     api.upload_source := api.filename notes_txt |}
  ∧ ∃ (body : api.query_body) (h'' : pyheap Z),
      api.ask_question plain_services
        (snd (fst (api.upload_document plain_services fresh_app notes_txt None
                     empty_heap)))
        "tell me about finance" None
        (snd (api.upload_document plain_services fresh_app notes_txt None empty_heap))
      = (api.Respond body, h'')
      ∧ length (api.contexts body) = 3.
Proof.
  assert (Hgood : consistent empty_heap (api.vector_db fresh_app))
    by (split; [reflexivity|constructor]).
  split; [exact Hgood|]. split; [vm_compute; reflexivity|].
  apply (upload_then_ask_answers_with_three_contexts plain_services fresh_app _
           notes_txt None "tell me about finance" empty_heap _
           {| api.upload_filename := api.filename notes_txt;
              api.chunks_ingested := 3;
              api.upload_source := api.filename notes_txt |}
           [7; 0]%Z Hgood).
  - intros texts. simpl. by rewrite length_map.
  - reflexivity.
  - reflexivity.
  - discriminate.
  - vm_compute. reflexivity.
Defined.

(** The type check compares the suffix in lower case, the reading of the
    file compares the name as it is.  A file that passes the check but
    whose name ends neither in [.txt] nor in [.pdf] (a [.TXT] or a
    [.Pdf]) is read as the empty text and answered with status 500;
    nothing is stored. *)
Theorem upload_under_another_letter_case_answers_500 {F : Type} `{!FloatOps F}
    {DB : Type} `{!VectorDB F DB} (services : api.Services) (a : api.app F DB)
    (file : api.UploadFile) (source_name : option str) (h : pyheap F) :
  api.allowed_file services (api.filename file) = true →
  endswith (api.filename file) (String.list_ascii_of_string ".txt") = false →
  endswith (api.filename file) (String.list_ascii_of_string ".pdf") = false →
  api.upload_document services a file source_name h = (api.HTTPException 500, a, h).
Proof.
  intros Hallowed Htxt Hpdf. unfold api.upload_document.
  rewrite Hallowed, Htxt, Hpdf. reflexivity.
Qed.

Lemma upload_under_another_letter_case_answers_500_witness :
  api.allowed_file plain_services (api.filename NOTES_TXT) = true
  ∧ api.upload_document plain_services fresh_app NOTES_TXT None empty_heap
    = (api.HTTPException 500, fresh_app, empty_heap).
Proof.
  assert (Hallowed : api.allowed_file plain_services (api.filename NOTES_TXT) = true)
    by (vm_compute; reflexivity).
  split; [exact Hallowed|].
  apply (upload_under_another_letter_case_answers_500 plain_services fresh_app
           NOTES_TXT None empty_heap Hallowed); vm_compute; reflexivity.
Defined.

(** ** Self-retrieval *)
Section Axis.
Implicit Types (u v w : list Z).

Lemma dot_nil_r u : dot u [] = 0%Z.
Proof. by destruct u. Qed.

Lemma dot_cons (a b : Z) u v : dot (a :: u) (b :: v) = (a * b + dot u v)%Z.
Proof. reflexivity. Qed.

Lemma dot_zeros (j : nat) w : dot (map Z.sgn (replicate j 0%Z)) w = 0%Z.
Proof.
  revert w. induction j as [|j IH]; intros [|x w]; simpl; [done..|].
  rewrite dot_cons, IH. lia.
Qed.

Lemma dot_axis (i j : nat) (c : Z) w :
  dot (map Z.sgn (replicate i 0%Z ++ c :: replicate j 0%Z)) w
  = (Z.sgn c * default 0 (w !! i))%Z.
Proof.
  revert w. induction i as [|i IH]; intros [|x w]; simpl.
  - rewrite dot_nil_r. lia.
  - rewrite dot_cons, dot_zeros. lia.
  - rewrite dot_nil_r. lia.
  - rewrite dot_cons, IH. lia.
Qed.

Lemma sgn_axis_lookup (i j : nat) (c : Z) (n : nat) :
  (-1 ≤ default 0 (map Z.sgn (replicate i 0%Z ++ c :: replicate j 0%Z) !! n) ≤ 1)%Z.
Proof.
  rewrite list_lookup_fmap.
  destruct ((replicate i 0%Z ++ c :: replicate j 0%Z) !! n) as [x|]; simpl; lia.
Qed.
End Axis.



